(** * Bill Receipt Manager: the monthly report and the monthly statistics

    A shallow embedding of [webapp/main.py]: the two read-only endpoints
    [stats] and [monthly_report], the SQL queries they issue, the page
    layout loop, the image fallback, the thumbnail computation and the
    write of the PDF at its final path; and the writing endpoints
    [signup], [login] and [upload_bill].

    Conventions of the embedding.
    - Python [str] values and SQLite TEXT values are [string]s of 8-bit
      characters.
    - The SQLite tables are lists of rows.  The text of an SQL statement
      fixes which rows are returned and what the ORDER BY clause promises.
      The engine is an interface ([SqlEngine]) with that contract;
      [sqlite_engine] is SQLite itself, which walks a table by rowid and
      keeps rows of equal sort key in the order of the walk.
    - A Python [float] is an interface ([PyFloat]): addition, zero and the
      text that an f-string prints for it.
    - A PIL image is its size and a description of its pixels; a page is the
      blank canvas together with the drawing calls made on it, in order.
    - The PDF file at a path is the list of pages written to it so far.
    - A file name is refused by [open] when it has a directory part that
      does not exist, a NUL, or more than 255 bytes; SQLite's own length
      limits are left out. *)

From Stdlib Require Import ZArith QArith Qround Qabs String Ascii List.
From Stdlib Require Import Permutation Sorted DecimalString Lia.
From Stdlib Require DecimalPos DecimalZ.
From stdpp Require Import gmap strings list fin_maps.

(** ** Text *)

Module Text.

(** The line feed of the f-string literal. *)
Definition nl : string := String (ascii_of_nat 10) EmptyString.

(** [str(n)] for a Python [int]. *)
Definition str_int (n : Z) : string := NilZero.string_of_int (Z.to_int n).

(** [s[:7]] *)
Definition slice7 (s : string) : string := substring 0 7 s.

(** [s.endswith(c)] for a one-character suffix. *)
Fixpoint endswith (s : string) (c : ascii) : bool :=
  match s with
  | EmptyString => false
  | String a EmptyString => Ascii.eqb a c
  | String _ s' => endswith s' c
  end.

(** [os.path.join(a, b)] on a POSIX system. *)
Definition os_path_join (a b : string) : string :=
  if String.prefix "/" b then b
  else if String.eqb a "" || endswith a "/" then a +:+ b
  else a +:+ "/" +:+ b.

(** SQLite folds the 26 ASCII letters when LIKE compares two characters. *)
Definition to_lower (c : ascii) : ascii :=
  let n := N_of_ascii c in
  if ((65 <=? n) && (n <=? 90))%N then ascii_of_N (n + 32) else c.

(** SQLite's comparison of a pattern with a text, both already cut at
    their first NUL: [%] matches any run of characters, [_] matches exactly
    one character, every other character matches itself up to ASCII case;
    there is no escape character. *)
Fixpoint like_chars (pat : string) : string -> bool :=
  match pat with
  | EmptyString =>
      fun s => match s with EmptyString => true | String _ _ => false end
  | String p pat' =>
      if Ascii.eqb p "%" then
        fix star (s : string) : bool :=
          like_chars pat' s
          || match s with EmptyString => false | String _ s' => star s' end
      else if Ascii.eqb p "_" then
        fun s =>
          match s with EmptyString => false | String _ s' => like_chars pat' s' end
      else
        fun s =>
          match s with
          | EmptyString => false
          | String c s' =>
              Ascii.eqb (to_lower c) (to_lower p) && like_chars pat' s'
          end
  end.

(** The NUL character. *)
Definition NUL : ascii := Ascii.zero.

(** ["\0" in s] *)
Fixpoint contains_nul (s : string) : bool :=
  match s with
  | EmptyString => false
  | String c s' => Ascii.eqb c NUL || contains_nul s'
  end.

(** What a C function sees of a text: the characters before its first
    NUL. *)
Fixpoint upto_nul (s : string) : string :=
  match s with
  | EmptyString => EmptyString
  | String c s' => if Ascii.eqb c NUL then EmptyString else String c (upto_nul s')
  end.

(** ['/' in s] *)
Fixpoint contains_slash (s : string) : bool :=
  match s with
  | EmptyString => false
  | String c s' => Ascii.eqb c "/" || contains_slash s'
  end.

(** [len(os.fsencode(s))]: a character below 128 is one byte of UTF-8, the
    others are two. *)
Fixpoint utf8_length (s : string) : nat :=
  match s with
  | EmptyString => 0
  | String c s' => (if (N_of_ascii c <? 128)%N then 1 else 2) + utf8_length s'
  end.

(** The longest file name, in bytes, that a Linux file system takes. *)
Definition NAME_MAX : nat := 255.

(** [open(os.path.join(directory, name), "wb")] in a directory that exists
    and holds plain files only.  It raises when the name has a directory
    part, which is then missing ([FileNotFoundError]), when it has a NUL
    ([ValueError]) and when it is longer than [NAME_MAX] ([OSError]). *)
Definition open_refuses (name : string) : bool :=
  contains_slash name || contains_nul name || (NAME_MAX <? utf8_length name)%nat.

(** [text LIKE pat] with SQLite's defaults.  SQLite takes the pattern and
    the text as C strings, so each ends at its first NUL. *)
Definition like (pat text : string) : bool :=
  like_chars (upto_nul pat) (upto_nul text).

(** A left-anchored prefix test up to ASCII case. *)
Fixpoint prefix_nocase (p s : string) : bool :=
  match p, s with
  | EmptyString, _ => true
  | String _ _, EmptyString => false
  | String a p', String c s' =>
      Ascii.eqb (to_lower c) (to_lower a) && prefix_nocase p' s'
  end.

(** The characters LIKE treats as wildcards. *)
Definition wildcard (c : ascii) : bool := Ascii.eqb c "%" || Ascii.eqb c "_".

Fixpoint has_wildcard (s : string) : bool :=
  match s with
  | EmptyString => false
  | String c s' => wildcard c || has_wildcard s'
  end.

Definition is_digit (c : ascii) : bool :=
  let n := N_of_ascii c in ((48 <=? n) && (n <=? 57))%N.

(** The characters of a month key: digits and the hyphen.  None is a
    letter or a wildcard. *)
Definition caseless (c : ascii) : bool := is_digit c || Ascii.eqb c "-".

Fixpoint all_caseless (s : string) : bool :=
  match s with
  | EmptyString => true
  | String c s' => caseless c && all_caseless s'
  end.

(** The textual month key [YYYY-MM]. *)
Definition well_formed_month_key (k : string) : bool :=
  match k with
  | String y1 (String y2 (String y3 (String y4 (String d (String m1
      (String m2 EmptyString)))))) =>
      is_digit y1 && is_digit y2 && is_digit y3 && is_digit y4
      && Ascii.eqb d "-" && is_digit m1 && is_digit m2
  | _ => false
  end.

(** TEXT values compare byte by byte under the BINARY collation. *)
Definition text_le (a b : string) : Prop := String.leb a b = true.

End Text.

Import Text.

(** ** Data model *)

(** Python [float]: the values of the REAL column [amount]. *)
Class PyFloat := {
  float : Type;
  float_zero : float;              (* the literal [0.0] *)
  float_add : float -> float -> float;
  float_str : float -> string      (* what [f"{x}"] prints *)
}.

(** A PIL image: its size and what its pixels show. *)
Inductive Pixels :=
| Flat (colour : string)
| Photo (path : string)
| Resampled (src : Pixels) (from : Z * Z).

Record Image := { im_size : Z * Z; im_pixels : Pixels }.

(** One call on [ImageDraw.Draw(page)] or on the page itself. *)
Inductive DrawOp :=
| multiline_text (xy : Z * Z) (text fill : string) (spacing : Z)
| draw_text (xy : Z * Z) (text fill : string)
| paste (im : Image) (xy : Z * Z).

Record Page := { canvas : Image; drawn : list DrawOp }.

#[global] Instance Pixels_eq_dec : EqDecision Pixels.
Proof. solve_decision. Defined.
#[global] Instance Image_eq_dec : EqDecision Image.
Proof. solve_decision. Defined.

(** [FileResponse(path=..., filename=..., media_type=...)] *)
Record FileResponse := {
  resp_path : string;
  resp_filename : string;
  resp_media_type : string
}.

Record User := {
  user_rowid : Z;
  username : string;
  password_hash : string;
  user_token : string
}.

Section WithFloat.
Context `{PyFloat}.

(** A row of the table [bills]. *)
Record Bill := {
  rowid : Z;
  user_id : Z;
  filename : string;
  amount : float;
  bill_date : string;
  bill_time : string;
  shop : string;
  uploaded_at : string
}.

(** What the handlers read and write: the two tables, the decodable image
    files (path to native size; any other path makes [Image.open] or
    [convert] raise) and the PDF files under [user_data]. *)
Record World := {
  users : list User;
  bills : list Bill;
  image_files : gmap string (positive * positive);
  report_files : gmap string (list Page)
}.

Definition date_le (a b : Bill) : Prop := text_le (bill_date a) (bill_date b).

(** What [ORDER BY bill_date] promises of the rows it is given: the same
    rows, in non-decreasing order of the column.  The order of rows with
    equal dates is the engine's. *)
Class SqlEngine := {
  order_by_bill_date : list Bill -> list Bill;
  order_by_permutation :
    forall rows, Permutation (order_by_bill_date rows) rows;
  order_by_sorted :
    forall rows, Sorted date_le (order_by_bill_date rows)
}.

(** ** Image operations *)

Definition Image_new (size : Z * Z) (colour : string) : Image :=
  {| im_size := size; im_pixels := Flat colour |}.

(** [Image.open(path).convert("RGB")]; [None] stands for any exception. *)
Definition Image_open (files : gmap string (positive * positive))
    (path : string) : option Image :=
  match files !! path with
  | Some (w, h) => Some {| im_size := (Z.pos w, Z.pos h); im_pixels := Photo path |}
  | None => None
  end.

(** [max(min(floor(number), ceil(number), key=key), 1)]: Python's [min]
    keeps the first of two arguments with equal keys.  Where the two keys
    are equal as rationals, Pillow's floats may differ in the last bit and
    pick the ceiling; what is proved below of the result holds of the floor
    and of the ceiling alike. *)
Definition round_aspect (number : Q) (key : Z -> Q) : Z :=
  let lo := Qfloor number in
  let hi := Qceiling number in
  Z.max (if Qle_bool (key lo) (key hi) then lo else hi) 1.

(** The size computation of Pillow's [Image.thumbnail].  Pillow evaluates
    the quotients in binary floating point; here they are exact
    rationals. *)
Definition preserve_aspect_ratio (provided_size self_size : Z * Z)
    : option (Z * Z) :=
  let '(x, y) := provided_size in
  let '(width, height) := self_size in
  if (width <=? x)%Z && (height <=? y)%Z then None
  else
    let aspect := (inject_Z width / inject_Z height)%Q in
    if Qle_bool aspect (inject_Z x / inject_Z y)%Q then
      Some (round_aspect (inject_Z y * aspect)%Q
              (fun n => Qabs (aspect - inject_Z n / inject_Z y)%Q), y)
    else
      Some (x, round_aspect (inject_Z x / aspect)%Q
                 (fun n => if (n =? 0)%Z then 0%Q
                           else Qabs (aspect - inject_Z x / inject_Z n)%Q)).

Definition resize (self : Image) (size : Z * Z) : Image :=
  {| im_size := size; im_pixels := Resampled (im_pixels self) (im_size self) |}.

(** [self.thumbnail(size)], which changes [self] in place. *)
Definition thumbnail (self : Image) (size : Z * Z) : Image :=
  match preserve_aspect_ratio size (im_size self) with
  | None => self
  | Some size' =>
      if decide (im_size self = size') then self else resize self size'
  end.

(** ** The queries *)

(** [SELECT id FROM users WHERE token = ?] followed by [fetchone()]. *)
Definition get_current_user_id (w : World) (token : string) : option Z :=
  user_rowid <$> List.find (fun u => String.eqb (user_token u) token) (users w).

(** [WHERE user_id = ? AND bill_date LIKE ?] with the parameters
    [(user_id, f"{year_month}%")]. *)
Definition report_where (uid : Z) (year_month : string) (b : Bill) : bool :=
  (user_id b =? uid)%Z && like (year_month +:+ "%") (bill_date b).

Definition stats_where (uid : Z) (b : Bill) : bool := (user_id b =? uid)%Z.

Context `{SqlEngine}.

(** The rows [cur.fetchall()] returns in [monthly_report]. *)
Definition report_rows (w : World) (uid : Z) (year_month : string) : list Bill :=
  order_by_bill_date (List.filter (report_where uid year_month) (bills w)).

(** The rows [cur.fetchall()] returns in [stats]: the columns [bill_date]
    and [amount]. *)
Definition stats_rows (w : World) (uid : Z) : list (string * float) :=
  List.map (fun b => (bill_date b, amount b))
    (order_by_bill_date (List.filter (stats_where uid) (bills w))).

(** ** [stats] *)

(** One turn of the loop over the fetched rows. *)
Definition stats_step (monthly_totals : gmap string float)
    (row : string * float) : gmap string float :=
  let '(bill_date, amount) := row in
  let month := slice7 bill_date in
  <[month := float_add (default float_zero (monthly_totals !! month)) amount]>
    monthly_totals.

Definition monthly_totals_of (rows : list (string * float)) : gmap string float :=
  fold_left stats_step rows ∅.

Definition stats (w : World) (token : string) : option (gmap string float) :=
  match get_current_user_id w token with
  | None => None                                   (* HTTP 401 *)
  | Some user_id => Some (monthly_totals_of (stats_rows w user_id))
  end.

(** ** [monthly_report] *)

Definition metadata_text (bill : Bill) : string :=
  "Shop: " +:+ shop bill +:+ nl +:+
  "Amount: " +:+ float_str (amount bill) +:+ nl +:+
  "Date: " +:+ bill_date bill +:+ " " +:+ bill_time bill.

(** The [try] ... [except Exception] around [Image.open]. *)
Definition resolve_image (files : gmap string (positive * positive))
    (name : string) : Image :=
  let image_path := os_path_join "user_data/images" name in
  match Image_open files image_path with
  | Some bill_img => bill_img
  | None => Image_new (200, 200)%Z "gray"
  end.

(** The body of the loop over the fetched bills. *)
Definition bill_page (files : gmap string (positive * positive))
    (bill : Bill) : Page :=
  let page := Image_new (595, 842)%Z "white" in
  let text := metadata_text bill in
  let bill_img := resolve_image files (filename bill) in
  let '(max_width, max_height) := (555, 600)%Z in
  let bill_img := thumbnail bill_img (max_width, max_height) in
  {| canvas := page;
     drawn := [multiline_text (20, 20)%Z text "black" 4; paste bill_img (20, 150)%Z] |}.

Definition no_bills_page : Page :=
  {| canvas := Image_new (595, 842)%Z "white";
     drawn := [draw_text (20, 400)%Z "No bills found for this month." "black"] |}.

(** The list [pages] when it reaches the save. *)
Definition build_pages (files : gmap string (positive * positive))
    (rows : list Bill) : list Page :=
  let pages := fold_left (fun pages bill => pages ++ [bill_page files bill]) rows [] in
  match pages with
  | [] => pages ++ [no_bills_page]
  | _ :: _ => pages
  end.

(** What may happen to a write: the open raises (a name the open refuses,
    permission denied), or a write fails once [k] pages are written (disk
    full, I/O error). *)
Inductive Fault :=
| open_fails
| write_fails (k : nat).

(** [pages[0].save(path, save_all=True, append_images=pages[1:])].  Pillow
    opens the file at [path] for writing, which empties it, and writes the
    pages one after the other.  If a write fails, Pillow closes the file
    before it would remove it; the close raises again on what it cannot
    flush, so the file stays, cut short. *)
Definition save (fs : gmap string (list Page)) (path : string)
    (first : Page) (append_images : list Page) (fault : option Fault)
    : gmap string (list Page) * bool :=
  let doc := first :: append_images in
  match fault with
  | Some open_fails => (fs, false)
  | Some (write_fails k) =>
      if (k <? length doc)%nat then (<[path := take k doc]> fs, false)
      else (<[path := doc]> fs, true)
  | None => (<[path := doc]> fs, true)
  end.

Inductive Outcome :=
| HTTP_401                        (* raised by [get_current_user_id] *)
| IndexError                      (* [pages[0]] on an empty list *)
| OSError                         (* raised in [save]; for a NUL in the
                                     path it is a [ValueError] *)
| Returned (r : FileResponse).

Definition with_reports (w : World) (fs : gmap string (list Page)) : World :=
  {| users := users w; bills := bills w; image_files := image_files w;
     report_files := fs |}.

Definition report_path_of (user_id : Z) (year_month : string) : string :=
  os_path_join "user_data" ("report_" +:+ str_int user_id +:+ "_" +:+ year_month +:+ ".pdf").

(** What the open of the report file does to a request for this owner and
    key when the environment adds no error of its own: the month key is
    part of the file name, so the open refuses some keys. *)
Definition fault_at_open (user_id : Z) (year_month : string) : option Fault :=
  if open_refuses ("report_" +:+ str_int user_id +:+ "_" +:+ year_month +:+ ".pdf")
  then Some open_fails else None.

Definition monthly_report (w : World) (year_month token : string)
    (fault : option Fault) : World * Outcome :=
  match get_current_user_id w token with
  | None => (w, HTTP_401)
  | Some user_id =>
      let bills := report_rows w user_id year_month in
      let pages := build_pages (image_files w) bills in
      let report_path := report_path_of user_id year_month in
      match pages with
      | [] => (w, IndexError)
      | first :: rest =>
          let '(fs, ok) := save (report_files w) report_path first rest fault in
          if ok then
            let filename := "report_" +:+ year_month +:+ ".pdf" in
            (with_reports w fs,
             Returned {| resp_path := report_path; resp_filename := filename;
                         resp_media_type := "application/pdf" |})
          else (with_reports w fs, OSError)
      end
  end.

End WithFloat.

Arguments Bill {_}.
Arguments World {_}.
Arguments SqlEngine {_}.

(** ** Reading a page back *)

(** The texts drawn on a page, in drawing order. *)
Definition page_texts (p : Page) : list string :=
  flat_map (fun op =>
    match op with
    | multiline_text _ t _ _ => [t]
    | draw_text _ t _ => [t]
    | paste _ _ => []
    end) (drawn p).

(** The metadata blocks (multi-line texts) drawn on a page. *)
Definition page_metadata (p : Page) : list string :=
  flat_map (fun op =>
    match op with multiline_text _ t _ _ => [t] | _ => [] end) (drawn p).

(** The images pasted on a page, each with its top-left corner. *)
Definition page_images (p : Page) : list (Image * (Z * Z)) :=
  flat_map (fun op =>
    match op with paste im xy => [(im, xy)] | _ => [] end) (drawn p).

(** How a thumbnail relates to the image it was made from. *)
Definition fits_within (box native scaled : Z * Z) : Prop :=
  let '(x, y) := box in
  let '(w, h) := native in
  let '(w', h') := scaled in
  (1 <= w' <= x /\ 1 <= h' <= y          (* inside the box *)
   /\ w' <= w /\ h' <= h                 (* never enlarged *)
   /\ ((w', h') = (w, h)                 (* left as it is, or *)
       \/ (h' = y /\ Z.abs (w' * h - y * w) < h)     (* width within one unit *)
       \/ (w' = x /\ Z.abs (h' * w - x * h) < w)))%Z. (* height within one unit *)

Section Composer.
Context `{PyFloat} `{!SqlEngine}.

(** The bills the WHERE clause of the report query selects. *)
Definition matching (w : World) (uid : Z) (year_month : string) : list Bill :=
  List.filter (report_where uid year_month) (bills w).

(** The document [monthly_report] hands to [save]. *)
Definition report_pages (w : World) (uid : Z) (year_month : string) : list Page :=
  build_pages (image_files w) (report_rows w uid year_month).

(** The three lines of a bill's metadata block. *)
Definition metadata_lines (bill : Bill) : list string :=
  [ "Shop: " +:+ shop bill;
    "Amount: " +:+ float_str (amount bill);
    "Date: " +:+ bill_date bill +:+ " " +:+ bill_time bill ].

(** The running total under one key: [get(month, 0.0) + float(amount)],
    row after row. *)
Definition sum_from (start : option float) (amounts : list float) : option float :=
  fold_left (fun total a => Some (float_add (default float_zero total) a))
    amounts start.

(** The fetched rows of [stats] that fall under key [k]. *)
Definition in_month (k : string) (row : string * float) : bool :=
  String.eqb (slice7 (fst row)) k.

(** The bills of the owner that the loop of [stats] adds under key [k], in
    the order in which it meets them. *)
Definition contributing (w : World) (uid : Z) (k : string) : list Bill :=
  List.filter (fun b => String.eqb (slice7 (bill_date b)) k)
    (order_by_bill_date (List.filter (stats_where uid) (bills w))).


End Composer.

(** ** Accounts and uploads

    The three writing endpoints [signup], [login] and [upload_bill], and
    the database [init_db] leaves on a first run. *)

(** What the handlers take from libraries: the hex digest of SHA-256, the
    base64 decoder ([None] when it raises), what [Image.open] followed by
    [convert] makes of a file's bytes ([None] when either raises, else the
    native size), and what SQLite does with a float bound to a REAL column:
    a NaN is bound as NULL, and [-0.0], like every float that is a whole
    number, is written as an integer and so read back as [0.0].  With the
    test for [-0.0] come the facts of IEEE addition that it obeys: adding
    [-0.0] or [0.0] to a float other than [-0.0] gives the same sum, and a
    sum is [-0.0] only when both terms are. *)
Class Libraries `{PyFloat} := {
  sha256_hexdigest : string -> string;
  b64decode : string -> option string;
  image_size : string -> option (positive * positive);
  is_nan : float -> bool;
  is_neg_zero : float -> bool;
  zero_not_neg_zero : is_neg_zero float_zero = false;
  add_neg_zero :
    forall x a, is_neg_zero x = false -> is_neg_zero a = true ->
                float_add x a = float_add x float_zero;
  add_not_neg_zero :
    forall x y, is_neg_zero x = false -> is_neg_zero (float_add x y) = false
}.

(** The float a REAL column gives back for the float written to it. *)
Definition sqlite_real `{Libraries} (x : float) : float :=
  if is_neg_zero x then float_zero else x.

(** [AuthRequest] *)
Record AuthRequest := { auth_username : string; auth_password : string }.

(** How a handler ends: an [HTTPException], an exception nothing catches,
    or its return value. *)
Inductive Result (A : Type) :=
| HTTPException (status_code : Z) (detail : string)
| Unhandled
| Done (a : A).

Arguments HTTPException {A}.
Arguments Unhandled {A}.
Arguments Done {A}.

(** The id an AUTOINCREMENT key gives the next row of a table from which
    nothing is ever deleted. *)
Definition next_rowid (ids : list Z) : Z := (fold_right Z.max 0 ids + 1)%Z.

Section Writers.
Context `{PyFloat} `{!Libraries}.

(** [UploadRequest] *)
Record UploadRequest := {
  req_token : string;
  req_filename : string;
  req_image : string;
  req_amount : float;
  req_bill_date : string;
  req_bill_time : string;
  req_shop : string
}.

(** The world once [init_db] has run for the first time. *)
Definition empty_world : World :=
  {| users := []; bills := []; image_files := ∅; report_files := ∅ |}.

(** [SELECT ... FROM users WHERE username = ?] followed by [fetchone()]. *)
Definition user_named (w : World) (name : string) : option User :=
  List.find (fun u => String.eqb (username u) name) (users w).

(** [token_hex] is what [secrets.token_hex(16)] draws. *)
Definition signup (w : World) (auth : AuthRequest) (token_hex : string)
    : World * Result string :=
  match user_named w (auth_username auth) with
  | Some _ => (w, HTTPException 400 "Username is already taken")
  | None =>
      let password_hash := sha256_hexdigest (auth_password auth) in
      let token := token_hex in
      let row := {| user_rowid := next_rowid (List.map user_rowid (users w));
                    username := auth_username auth;
                    password_hash := password_hash;
                    user_token := token |} in
      ({| users := users w ++ [row]; bills := bills w;
          image_files := image_files w; report_files := report_files w |},
       Done token)
  end.

Definition login (w : World) (auth : AuthRequest) : Result string :=
  match user_named w (auth_username auth) with
  | None => HTTPException 401 "Invalid credentials"
  | Some row =>
      let stored_hash := password_hash row in
      let token := user_token row in
      if negb (String.eqb (sha256_hexdigest (auth_password auth)) stored_hash)
      then HTTPException 401 "Invalid credentials"
      else Done token
  end.

(** [open(save_path, "wb")] followed by [write]: the file now holds these
    bytes, whatever it held. *)
Definition write_image (files : gmap string (positive * positive))
    (save_path image_data : string) : gmap string (positive * positive) :=
  match image_size image_data with
  | Some size => <[save_path := size]> files
  | None => delete save_path files
  end.

(** [timestamp] is [datetime.utcnow().timestamp()] rounded as [:.0f]
    prints it, [utcnow_iso] is [datetime.utcnow().isoformat()].  The
    image is written before the row is inserted; the INSERT raises
    [IntegrityError] for a NaN amount, which is bound as NULL to a NOT NULL
    column, and the image file then stays.  The row holds the amount as the
    REAL column gives it back. *)
Definition upload_bill (w : World) (req : UploadRequest)
    (timestamp : Z) (utcnow_iso : string) : World * Result string :=
  match get_current_user_id w (req_token req) with
  | None => (w, HTTPException 401 "Invalid or missing token")
  | Some user_id =>
      let unique_name := str_int timestamp +:+ "_" +:+ req_filename req in
      let save_path := os_path_join "user_data/images" unique_name in
      match b64decode (req_image req) with
      | None => (w, HTTPException 400 "Invalid image data")
      | Some image_data =>
          if open_refuses unique_name then (w, Unhandled)
          else
            let files := write_image (image_files w) save_path image_data in
            if is_nan (req_amount req) then
              ({| users := users w; bills := bills w;
                  image_files := files; report_files := report_files w |},
               Unhandled)
            else
              let row := {| rowid := next_rowid (List.map rowid (bills w));
                            user_id := user_id;
                            filename := unique_name;
                            amount := sqlite_real (req_amount req);
                            bill_date := req_bill_date req;
                            bill_time := req_bill_time req;
                            shop := req_shop req;
                            uploaded_at := utcnow_iso |} in
              ({| users := users w; bills := bills w ++ [row];
                  image_files := files; report_files := report_files w |},
               Done "success")
      end
  end.

(** One request that may write, with what the environment adds to it. *)
Inductive Request :=
| Signup (auth : AuthRequest) (token_hex : string)
| Upload (req : UploadRequest) (timestamp : Z) (utcnow_iso : string)
| Report (year_month token : string) (fault : option Fault).

Context `{!SqlEngine}.

Definition handle (w : World) (r : Request) : World :=
  match r with
  | Signup auth token_hex => fst (signup w auth token_hex)
  | Upload req timestamp utcnow_iso => fst (upload_bill w req timestamp utcnow_iso)
  | Report year_month token fault => fst (monthly_report w year_month token fault)
  end.

(** The world after a history of such requests on a fresh database. *)
Definition run (history : list Request) : World :=
  fold_left handle history empty_world.

(** What the tables keep true. *)
Definition consistent (w : World) : Prop :=
  NoDup (List.map username (users w))
  /\ NoDup (List.map user_rowid (users w))
  /\ NoDup (List.map rowid (bills w))
  /\ Forall (fun u => (1 <= user_rowid u)%Z) (users w)
  /\ Forall (fun b => In (user_id b) (List.map user_rowid (users w))
                      /\ contains_slash (filename b) = false) (bills w).

End Writers.

Arguments UploadRequest {_}.
Arguments Request {_}.

(** ** Two engines

    Both sort by insertion, which keeps rows of equal date in the order
    they come in.  The first takes the rows in the order of the list.  The
    second is SQLite's: the table is walked in rowid order, so the rows
    reach the sorter by ascending rowid, and rows of one date leave it by
    ascending rowid. *)

Section Engines.
Context `{PyFloat}.

Fixpoint insert_row (b : Bill) (rows : list Bill) : list Bill :=
  match rows with
  | [] => [b]
  | r :: rows' =>
      if String.leb (bill_date b) (bill_date r) then b :: r :: rows'
      else r :: insert_row b rows'
  end.

Definition sort_rows (rows : list Bill) : list Bill :=
  fold_right insert_row [] rows.

Fixpoint insert_by_rowid (b : Bill) (rows : list Bill) : list Bill :=
  match rows with
  | [] => [b]
  | r :: rows' =>
      if (rowid b <=? rowid r)%Z then b :: r :: rows'
      else r :: insert_by_rowid b rows'
  end.

(** The rows as a walk of the table meets them. *)
Definition scan_by_rowid (rows : list Bill) : list Bill :=
  fold_right insert_by_rowid [] rows.

Definition sort_rows_of_scan (rows : list Bill) : list Bill :=
  sort_rows (scan_by_rowid rows).

End Engines.

(** ** Sample data

    Amounts with two decimals, held in hundredths; they add exactly and
    print as Python prints such floats ([12.5], [9.0], [42.1]). *)

Module Sample.

Definition digit (d : Z) : string := str_int (d mod 10).

Definition hundredths_str (h : Z) : string :=
  let units := (h / 100)%Z in
  let frac := (h mod 100)%Z in
  str_int units +:+ "." +:+
  (if (frac mod 10 =? 0)%Z then digit (frac / 10)
   else digit (frac / 10) +:+ digit frac).

#[export] Instance hundredths : PyFloat :=
  {| float := Z; float_zero := 0%Z; float_add := Z.add;
     float_str := hundredths_str |}.

Definition mk_bill (i uid : Z) (file : string) (amt : Z)
    (date time shop_name : string) : Bill :=
  {| rowid := i; user_id := uid; filename := file; amount := amt;
     bill_date := date; bill_time := time; shop := shop_name;
     uploaded_at := "2024-04-01T08:00:00" |}.

Definition march_02 := mk_bill 1 1 "1_a.png" 1250 "2024-03-02" "10:15" "Grocer".
Definition march_15 := mk_bill 2 1 "2_b.png" 900 "2024-03-15" "12:00" "Bakery".
Definition march_28 := mk_bill 3 1 "3_c.png" 4210 "2024-03-28" "18:30" "Pharmacy".
Definition other_user := mk_bill 4 2 "4_d.png" 100 "2024-03-09" "09:00" "Kiosk".

Definition alice : User :=
  {| user_rowid := 1; username := "alice"; password_hash := "a1"; user_token := "tok-a" |}.
Definition bob : User :=
  {| user_rowid := 2; username := "bob"; password_hash := "b2"; user_token := "tok-b" |}.

(** [1_a.png] is a large photograph, [2_b.png] a small one; [3_c.png] is
    missing or corrupt. *)
Definition world : World :=
  {| users := [alice; bob];
     bills := [march_28; march_02; other_user; march_15];
     image_files :=
       {[ "user_data/images/1_a.png" := (3000%positive, 4000%positive);
          "user_data/images/2_b.png" := (300%positive, 200%positive) ]};
     report_files := ∅ |}.


End Sample.

(** ** The page loop *)

Section PageLoop.
Context `{PyFloat} `{!SqlEngine}.

Lemma string_app_cons (x : ascii) (a b : string) :
  String x a +:+ b = String x (a +:+ b).
Proof. reflexivity. Qed.

Lemma string_app_assoc (a b c : string) : (a +:+ b) +:+ c = a +:+ (b +:+ c).
Proof.
  induction a as [|x a IH]; [reflexivity |].
  rewrite !string_app_cons. now rewrite IH.
Qed.

Lemma metadata_text_lines (bill : Bill) :
  metadata_text bill = String.concat nl (metadata_lines bill).
Proof.
  unfold metadata_text, metadata_lines. cbn [String.concat].
  now rewrite !string_app_assoc.
Qed.

Lemma page_loop_map files (rows : list Bill) (acc : list Page) :
  fold_left (fun pages bill => pages ++ [bill_page files bill]) rows acc
  = acc ++ List.map (bill_page files) rows.
Proof.
  revert acc. induction rows as [|b rows IH]; intros acc; simpl.
  - now rewrite app_nil_r.
  - rewrite IH, <- app_assoc. reflexivity.
Qed.

Lemma build_pages_nil files : build_pages files [] = [no_bills_page].
Proof. reflexivity. Qed.

Lemma build_pages_cons files (b : Bill) rows :
  build_pages files (b :: rows) = List.map (bill_page files) (b :: rows).
Proof. unfold build_pages. rewrite page_loop_map. reflexivity. Qed.

Lemma build_pages_nonempty files (rows : list Bill) :
  rows <> [] -> build_pages files rows = List.map (bill_page files) rows.
Proof. destruct rows; [congruence | intros _; apply build_pages_cons]. Qed.

Lemma build_pages_not_nil files (rows : list Bill) : build_pages files rows <> [].
Proof.
  destruct rows; [rewrite build_pages_nil | rewrite build_pages_cons]; discriminate.
Qed.

Lemma report_rows_matching (w : World) uid ym :
  Permutation (report_rows w uid ym) (matching w uid ym).
Proof. apply order_by_permutation. Qed.

Lemma report_rows_length (w : World) uid ym :
  length (report_rows w uid ym) = length (matching w uid ym).
Proof. apply Permutation_length, report_rows_matching. Qed.

Lemma report_rows_nil_iff (w : World) uid ym :
  report_rows w uid ym = [] <-> matching w uid ym = [].
Proof.
  split; intros E.
  - apply Permutation_nil. rewrite <- E. apply report_rows_matching.
  - apply Permutation_nil. rewrite <- E. symmetry. apply report_rows_matching.
Qed.

Lemma bill_page_metadata files (bill : Bill) :
  page_metadata (bill_page files bill) = [metadata_text bill].
Proof. reflexivity. Qed.

End PageLoop.

(** ** The order on TEXT values *)

Section TextOrder.

Lemma text_le_refl (a : string) : text_le a a.
Proof.
  unfold text_le, String.leb.
  induction a as [|c a IH]; simpl; [reflexivity |].
  unfold Ascii.compare. now rewrite N.compare_refl.
Qed.

Lemma text_le_total (a b : string) : text_le a b \/ text_le b a.
Proof. apply String.leb_total. Qed.

Lemma text_le_antisym (a b : string) : text_le a b -> text_le b a -> a = b.
Proof. apply String.leb_antisym. Qed.


End TextOrder.

(** ** The engines meet the contract of ORDER BY *)

Section EngineProofs.
Context `{PyFloat}.


Lemma insert_row_permutation (b : Bill) rows :
  Permutation (insert_row b rows) (b :: rows).
Proof.
  induction rows as [|r rows IH]; simpl; [reflexivity |].
  destruct (String.leb (bill_date b) (bill_date r)); [reflexivity |].
  rewrite IH. apply perm_swap.
Qed.

Lemma insert_row_head (b : Bill) rows (r : Bill) :
  HdRel date_le r rows -> date_le r b -> HdRel date_le r (insert_row b rows).
Proof.
  intros Hhd Hrb. destruct rows as [|r' rows]; simpl.
  - now constructor.
  - destruct (String.leb (bill_date b) (bill_date r')); constructor;
      [assumption | now inversion Hhd].
Qed.

Lemma insert_row_sorted (b : Bill) rows :
  Sorted date_le rows -> Sorted date_le (insert_row b rows).
Proof.
  induction 1 as [|r rows Hs IH Hhd]; simpl.
  - repeat constructor.
  - destruct (String.leb (bill_date b) (bill_date r)) eqn:E.
    + constructor; [now constructor | now constructor].
    + constructor; [exact IH |].
      apply insert_row_head; [exact Hhd |].
      destruct (text_le_total (bill_date b) (bill_date r)) as [L|L];
        [unfold text_le in L; congruence | exact L].
Qed.

Lemma sort_rows_permutation (rows : list Bill) : Permutation (sort_rows rows) rows.
Proof.
  induction rows as [|b rows IH]; simpl; [reflexivity |].
  rewrite insert_row_permutation. now constructor.
Qed.

Lemma sort_rows_sorted (rows : list Bill) : Sorted date_le (sort_rows rows).
Proof.
  induction rows as [|b rows IH]; simpl; [constructor |].
  now apply insert_row_sorted.
Qed.

Definition storage_order_engine : SqlEngine :=
  {| order_by_bill_date := sort_rows;
     order_by_permutation := sort_rows_permutation;
     order_by_sorted := sort_rows_sorted |}.

Lemma insert_by_rowid_permutation (b : Bill) rows :
  Permutation (insert_by_rowid b rows) (b :: rows).
Proof.
  induction rows as [|r rows IH]; simpl; [reflexivity |].
  destruct (rowid b <=? rowid r)%Z; [reflexivity |].
  rewrite IH. apply perm_swap.
Qed.

Lemma scan_by_rowid_permutation (rows : list Bill) :
  Permutation (scan_by_rowid rows) rows.
Proof.
  induction rows as [|b rows IH]; simpl; [reflexivity |].
  rewrite insert_by_rowid_permutation. now constructor.
Qed.

Lemma sort_rows_of_scan_permutation (rows : list Bill) :
  Permutation (sort_rows_of_scan rows) rows.
Proof.
  unfold sort_rows_of_scan.
  rewrite sort_rows_permutation. apply scan_by_rowid_permutation.
Qed.

Lemma sort_rows_of_scan_sorted (rows : list Bill) :
  Sorted date_le (sort_rows_of_scan rows).
Proof. apply sort_rows_sorted. Qed.

Definition sqlite_engine : SqlEngine :=
  {| order_by_bill_date := sort_rows_of_scan;
     order_by_permutation := sort_rows_of_scan_permutation;
     order_by_sorted := sort_rows_of_scan_sorted |}.

End EngineProofs.

(** ** The handler as a whole *)

Section Handler.
Context `{PyFloat} `{!SqlEngine}.

Lemma report_pages_not_nil (w : World) uid ym : report_pages w uid ym <> [].
Proof. apply build_pages_not_nil. Qed.

(** With a valid token and no I/O error the handler writes the composed
    document at the report path and returns the response. *)
Lemma monthly_report_returns (w : World) ym token uid :
  get_current_user_id w token = Some uid ->
  monthly_report w ym token None
  = (with_reports w (<[report_path_of uid ym := report_pages w uid ym]> (report_files w)),
     Returned {| resp_path := report_path_of uid ym;
                 resp_filename := "report_" +:+ ym +:+ ".pdf";
                 resp_media_type := "application/pdf" |}).
Proof.
  intros Hu. unfold monthly_report. rewrite Hu.
  fold (report_pages w uid ym).
  destruct (report_pages w uid ym) as [|first rest] eqn:E.
  - now apply report_pages_not_nil in E.
  - reflexivity.
Qed.

Lemma report_pages_lookup (w : World) uid ym (i : nat) (bill : Bill) :
  report_rows w uid ym !! i = Some bill ->
  report_pages w uid ym !! i = Some (bill_page (image_files w) bill).
Proof.
  intros Hi. unfold report_pages.
  rewrite build_pages_nonempty by (intros E; rewrite E in Hi; discriminate).
  change (List.map (bill_page (image_files w)) (report_rows w uid ym))
    with (bill_page (image_files w) <$> report_rows w uid ym).
  now rewrite list_lookup_fmap, Hi.
Qed.

(** C1.  When N >= 1 bills of the owner match the month key, the document
    written by the handler has exactly N pages; the fetched rows are the
    matching bills, each once; and page i carries, as its one metadata
    block, the three lines of row i: the shop, then the amount, then date
    and time, joined by line feeds. *)
Theorem report_has_one_page_per_bill (w : World) (ym token : string) (uid : Z) :
  get_current_user_id w token = Some uid ->
  (1 <= length (matching w uid ym))%nat ->
  exists pages,
    report_files (fst (monthly_report w ym token None)) !! report_path_of uid ym
      = Some pages
    /\ length pages = length (matching w uid ym)
    /\ Permutation (report_rows w uid ym) (matching w uid ym)
    /\ forall (i : nat) (bill : Bill),
         report_rows w uid ym !! i = Some bill ->
         exists page,
           pages !! i = Some page
           /\ page_metadata page
              = [String.concat nl
                   [ "Shop: " +:+ shop bill;
                     "Amount: " +:+ float_str (amount bill);
                     "Date: " +:+ bill_date bill +:+ " " +:+ bill_time bill ]].
Proof.
  intros Hu HN. exists (report_pages w uid ym).
  rewrite (monthly_report_returns _ _ _ _ Hu). cbn [fst report_files with_reports].
  split; [apply lookup_insert_eq |].
  assert (Hne : report_rows w uid ym <> []).
  { intros E. apply report_rows_nil_iff in E. rewrite E in HN. simpl in HN. lia. }
  split.
  { unfold report_pages. rewrite build_pages_nonempty by exact Hne.
    rewrite length_map. apply report_rows_length. }
  split; [apply report_rows_matching |].
  intros i bill Hi. exists (bill_page (image_files w) bill).
  split; [apply report_pages_lookup; exact Hi |].
  rewrite bill_page_metadata, metadata_text_lines. reflexivity.
Qed.

(** C2.  When no bill of the owner matches the month key, the handler
    returns its normal response, and the document it has written is one
    page: a canvas of the size of every bill page, with no pasted image and
    no metadata block, only the fixed message. *)
Theorem empty_month_gives_message_page (w : World) (ym token : string) (uid : Z) :
  get_current_user_id w token = Some uid ->
  matching w uid ym = [] ->
  snd (monthly_report w ym token None)
    = Returned {| resp_path := report_path_of uid ym;
                  resp_filename := "report_" +:+ ym +:+ ".pdf";
                  resp_media_type := "application/pdf" |}
  /\ report_files (fst (monthly_report w ym token None)) !! report_path_of uid ym
       = Some [no_bills_page]
  /\ im_size (canvas no_bills_page) = (595, 842)%Z
  /\ (forall files (b : Bill), canvas (bill_page files b) = canvas no_bills_page)
  /\ page_images no_bills_page = []
  /\ page_metadata no_bills_page = []
  /\ page_texts no_bills_page = ["No bills found for this month."].
Proof.
  intros Hu Hm.
  rewrite (monthly_report_returns _ _ _ _ Hu). cbn [fst snd report_files with_reports].
  split; [reflexivity |]. split.
  { rewrite lookup_insert_eq. unfold report_pages.
    apply report_rows_nil_iff in Hm. now rewrite Hm. }
  repeat split.
Qed.

(** C10.  Whatever the owner, the month key and the outcome of the write,
    the list handed to the save has a first page: [pages[0]] never raises,
    and it is the empty-match branch that supplies the page when no bill
    was fetched. *)
Theorem pages_nonempty_at_save (w : World) (ym token : string) (fault : option Fault) :
  snd (monthly_report w ym token fault) <> IndexError
  /\ (forall uid, exists first rest, report_pages w uid ym = first :: rest)
  /\ (forall uid, report_rows w uid ym = [] -> report_pages w uid ym = [no_bills_page]).
Proof.
  split; [| split].
  - unfold monthly_report.
    destruct (get_current_user_id w token) as [uid|]; [| discriminate].
    fold (report_pages w uid ym).
    destruct (report_pages w uid ym) as [|first rest] eqn:E.
    + now apply report_pages_not_nil in E.
    + destruct (save _ _ _ _ _) as [fs []]; discriminate.
  - intros uid. destruct (report_pages w uid ym) as [|first rest] eqn:E.
    + now apply report_pages_not_nil in E.
    + eauto.
  - intros uid E. unfold report_pages. now rewrite E.
Qed.

End Handler.

(** ** The thumbnail size *)

Section Thumbnail.
Local Open Scope Z_scope.

Lemma inject_Z_nonzero (d : Z) : d <> 0 -> ~ (inject_Z d == 0)%Q.
Proof. unfold Qeq, inject_Z. simpl. lia. Qed.

Lemma Qfloor_quotient (n d : Z) : Qfloor (inject_Z n / inject_Z d) = n / d.
Proof. symmetry. apply Zdiv_Qdiv. Qed.

Lemma Qceiling_quotient (n d : Z) : Qceiling (inject_Z n / inject_Z d) = - ((- n) / d).
Proof.
  unfold Qceiling. f_equal. rewrite <- Qfloor_quotient.
  apply Qfloor_comp. rewrite inject_Z_opp. unfold Qdiv. ring.
Qed.

(** [y * (w / h)] and [x / (w / h)] as quotients of integers. *)
Lemma scaled_width_quotient (y w h : Z) :
  (inject_Z y * (inject_Z w / inject_Z h) == inject_Z (y * w) / inject_Z h)%Q.
Proof. rewrite inject_Z_mult. unfold Qdiv. ring. Qed.

Lemma scaled_height_quotient (x w h : Z) :
  0 < w -> 0 < h ->
  (inject_Z x / (inject_Z w / inject_Z h) == inject_Z (x * h) / inject_Z w)%Q.
Proof.
  intros Hw Hh. rewrite inject_Z_mult. field.
  split; apply inject_Z_nonzero; lia.
Qed.

(** The test [x / y >= aspect] on integers. *)
Lemma aspect_test (x y w h : Z) :
  0 < y -> 0 < h ->
  Qle_bool (inject_Z w / inject_Z h) (inject_Z x / inject_Z y) = true
  <-> w * y <= x * h.
Proof.
  intros Hy Hh. rewrite Qle_bool_iff.
  destruct y as [|yp|yp]; try lia. destruct h as [|hp|hp]; try lia.
  unfold Qle, Qdiv, Qinv, Qmult, inject_Z. simpl.
  rewrite !Z.mul_1_r. lia.
Qed.

(** [round_aspect] returns the floor or the ceiling, raised to 1. *)
Lemma round_aspect_cases (number : Q) (key : Z -> Q) :
  round_aspect number key = Z.max (Qfloor number) 1
  \/ round_aspect number key = Z.max (Qceiling number) 1.
Proof. unfold round_aspect. destruct (Qle_bool _ _); auto. Qed.

(** A positive quotient n/d rounded by [round_aspect]: the result is at
    least 1, at most the ceiling, and less than one unit away from n/d. *)
Lemma round_quotient (number : Q) (n d : Z) (key : Z -> Q) :
  0 < n -> 0 < d ->
  (number == inject_Z n / inject_Z d)%Q ->
  1 <= round_aspect number key
  /\ (round_aspect number key - 1) * d < n
  /\ Z.abs (round_aspect number key * d - n) < d.
Proof.
  intros Hn Hd Hq.
  pose proof (Z.div_mod n d) as E1. pose proof (Z.mod_pos_bound n d) as B1.
  pose proof (Z.div_mod (- n) d) as E2. pose proof (Z.mod_pos_bound (- n) d) as B2.
  assert (0 <= n / d) by (apply Z.div_pos; lia).
  destruct (round_aspect_cases number key) as [-> | ->].
  - rewrite (Qfloor_comp _ _ Hq), Qfloor_quotient.
    destruct (Z.max_spec (n / d) 1) as [[? ->] | [? ->]]; nia.
  - rewrite (Qceiling_comp _ _ Hq), Qceiling_quotient.
    assert (1 <= - (- n / d)) by nia.
    rewrite Z.max_l by lia. nia.
Qed.

(** The size Pillow computes for an image that does not fit the box: it
    lies in the box, does not exceed the native size, touches the box on
    one axis, and on the other axis is less than one unit away from the
    exact proportional value. *)
Lemma preserve_aspect_ratio_some (x y w h x' y' : Z) :
  0 < x -> 0 < y -> 0 < w -> 0 < h ->
  preserve_aspect_ratio (x, y) (w, h) = Some (x', y') ->
  1 <= x' <= x /\ 1 <= y' <= y /\ x' <= w /\ y' <= h
  /\ ((y' = y /\ Z.abs (x' * h - y * w) < h)
      \/ (x' = x /\ Z.abs (y' * w - x * h) < w)).
Proof.
  intros Hx Hy Hw Hh. unfold preserve_aspect_ratio.
  destruct ((w <=? x) && (h <=? y))%bool eqn:Efit; [discriminate |].
  apply andb_false_iff in Efit. rewrite !Z.leb_gt in Efit.
  destruct (Qle_bool _ _) eqn:Easp; intros [= <- <-].
  - apply aspect_test in Easp; [| lia | lia].
    assert (Hyh : y < h) by nia.
    match goal with |- context [round_aspect ?q ?k] =>
      destruct (round_quotient q (y * w) h k) as (R1 & R2 & R3);
        [nia | lia | apply scaled_width_quotient |];
      set (r := round_aspect q k) in *
    end.
    repeat split; try lia; nia.
  - assert (Hn : ~ w * y <= x * h).
    { intros C. apply aspect_test in C; [congruence | lia | lia]. }
    assert (Hxw : x < w) by nia.
    match goal with |- context [round_aspect ?q ?k] =>
      destruct (round_quotient q (x * h) w k) as (R1 & R2 & R3);
        [nia | lia | apply scaled_height_quotient; lia |];
      set (r := round_aspect q k) in *
    end.
    repeat split; try lia; nia.
Qed.

End Thumbnail.

(** ** Images on the page *)

Section ImagesOnPage.
Context `{PyFloat} `{!SqlEngine}.
Local Open Scope Z_scope.

Lemma thumbnail_fits (self : Image) (x y w h : Z) :
  im_size self = (w, h) -> 0 < w -> 0 < h -> 0 < x -> 0 < y ->
  fits_within (x, y) (w, h) (im_size (thumbnail self (x, y))).
Proof.
  intros Hs Hw Hh Hx Hy. unfold thumbnail. rewrite Hs.
  destruct (preserve_aspect_ratio (x, y) (w, h)) as [[x' y']|] eqn:E.
  - pose proof (preserve_aspect_ratio_some x y w h x' y' Hx Hy Hw Hh E) as P.
    assert (F : fits_within (x, y) (w, h) (x', y')).
    { unfold fits_within. intuition lia. }
    destruct (decide ((w, h) = (x', y'))) as [D|D]; [| exact F].
    rewrite Hs. rewrite D in F |- *. exact F.
  - unfold preserve_aspect_ratio in E.
    destruct ((w <=? x) && (h <=? y))%bool eqn:Efit.
    + apply andb_true_iff in Efit. rewrite !Z.leb_le in Efit.
      rewrite Hs. unfold fits_within. intuition lia.
    + destruct (Qle_bool _ _); discriminate.
Qed.

Lemma resolve_image_size files name :
  exists w h, im_size (resolve_image files name) = (w, h) /\ 0 < w /\ 0 < h.
Proof.
  unfold resolve_image, Image_open.
  destruct (files !! _) as [[wp hp]|]; simpl; eauto with lia.
Qed.

Lemma resolve_image_missing files name :
  files !! os_path_join "user_data/images" name = None ->
  resolve_image files name = Image_new (200, 200) "gray".
Proof. intros E. unfold resolve_image, Image_open. now rewrite E. Qed.

Lemma thumbnail_placeholder :
  thumbnail (Image_new (200, 200) "gray") (555, 600) = Image_new (200, 200) "gray".
Proof. reflexivity. Qed.

(** C5.  The one image pasted on a bill's page is the thumbnail of the
    resolved image for the box 555 x 600: it lies inside the box on both
    axes, is never larger than the resolved image, and either keeps the
    native size or touches the box on one axis with the other axis less
    than one unit away from the exact proportional value. *)
Theorem pasted_image_fits_box (files : gmap string (positive * positive)) (bill : Bill) :
  exists scaled : Image,
    page_images (bill_page files bill) = [(scaled, (20, 150))]
    /\ scaled = thumbnail (resolve_image files (filename bill)) (555, 600)
    /\ fits_within (555, 600)
         (im_size (resolve_image files (filename bill))) (im_size scaled).
Proof.
  eexists. split; [reflexivity |]. split; [reflexivity |].
  destruct (resolve_image_size files (filename bill)) as (w & h & Hs & Hw & Hh).
  rewrite Hs. apply thumbnail_fits; [exact Hs | lia ..].
Qed.

(** C4.  When the image file of a fetched bill cannot be opened or decoded,
    the handler still returns its response; the bill's page is written at
    the bill's position, with the bill's three metadata lines, and the
    image pasted on it is the flat gray 200 x 200 placeholder, which lies
    inside the 555 x 600 box and is pasted unscaled. *)
Theorem unreadable_image_gets_placeholder
    (w : World) (ym token : string) (uid : Z) (i : nat) (bill : Bill) :
  get_current_user_id w token = Some uid ->
  report_rows w uid ym !! i = Some bill ->
  image_files w !! os_path_join "user_data/images" (filename bill) = None ->
  snd (monthly_report w ym token None)
    = Returned {| resp_path := report_path_of uid ym;
                  resp_filename := "report_" +:+ ym +:+ ".pdf";
                  resp_media_type := "application/pdf" |}
  /\ exists pages page,
       report_files (fst (monthly_report w ym token None)) !! report_path_of uid ym
         = Some pages
       /\ length pages = length (report_rows w uid ym)
       /\ pages !! i = Some page
       /\ page_metadata page = [String.concat nl (metadata_lines bill)]
       /\ page_images page
          = [({| im_size := (200, 200); im_pixels := Flat "gray" |}, (20, 150))]
       /\ fits_within (555, 600) (200, 200) (200, 200).
Proof.
  intros Hu Hi Hmiss.
  rewrite (monthly_report_returns _ _ _ _ Hu). cbn [fst snd report_files with_reports].
  split; [reflexivity |].
  exists (report_pages w uid ym), (bill_page (image_files w) bill).
  split; [apply lookup_insert_eq |]. split.
  { unfold report_pages.
    rewrite build_pages_nonempty by (intros E; rewrite E in Hi; discriminate).
    apply length_map. }
  split; [apply report_pages_lookup; exact Hi |].
  split; [rewrite bill_page_metadata, metadata_text_lines; reflexivity |].
  split.
  { unfold bill_page, page_images. cbn [drawn flat_map app].
    rewrite (resolve_image_missing _ _ Hmiss), thumbnail_placeholder. reflexivity. }
  unfold fits_within. repeat split; try lia. now left.
Qed.

End ImagesOnPage.

(** ** LIKE with a trailing percent sign *)

Section LikePattern.

Lemma like_percent (s : string) : like_chars "%" s = true.
Proof.
  induction s as [|c s IH]; [reflexivity |].
  change (like_chars "%" (String c s))
    with (like_chars "" (String c s) || like_chars "%" s).
  rewrite IH. apply orb_true_r.
Qed.

Lemma like_cons_plain (a : ascii) (p s : string) :
  wildcard a = false ->
  like_chars (String a p) s
  = match s with
    | EmptyString => false
    | String c s' => Ascii.eqb (to_lower c) (to_lower a) && like_chars p s'
    end.
Proof.
  unfold wildcard. intros Hw. apply orb_false_iff in Hw as [H1 H2].
  cbn [like_chars]. rewrite H1, H2. reflexivity.
Qed.

(** A key without wildcards, followed by [%], is a prefix test up to ASCII
    case, over the whole length of the key. *)
Lemma like_chars_prefix_nocase (p s : string) :
  has_wildcard p = false -> like_chars (p +:+ "%") s = prefix_nocase p s.
Proof.
  revert s. induction p as [|a p IH]; intros s Hw.
  - apply like_percent.
  - cbn [has_wildcard] in Hw. apply orb_false_iff in Hw as [Ha Hp].
    rewrite string_app_cons, (like_cons_plain _ _ _ Ha).
    destruct s as [|c s]; [reflexivity |].
    cbn [prefix_nocase]. now rewrite IH.
Qed.

(** *** Texts with a NUL *)

Lemma upto_nul_id (s : string) : contains_nul s = false -> upto_nul s = s.
Proof.
  induction s as [|c s IH]; [reflexivity |]. cbn [contains_nul upto_nul].
  intros Hn. apply orb_false_iff in Hn as [Hc Hs]. now rewrite Hc, IH.
Qed.

Lemma contains_nul_app (a b : string) :
  contains_nul (a +:+ b) = contains_nul a || contains_nul b.
Proof.
  induction a as [|c a IH]; [reflexivity |].
  rewrite string_app_cons. cbn [contains_nul]. now rewrite IH, orb_assoc.
Qed.

Lemma contains_slash_app (a b : string) :
  contains_slash (a +:+ b) = contains_slash a || contains_slash b.
Proof.
  induction a as [|c a IH]; [reflexivity |].
  rewrite string_app_cons. cbn [contains_slash]. now rewrite IH, orb_assoc.
Qed.

(** A key with a slash or a NUL puts it into the name of the report file,
    and the open refuses it. *)
Lemma open_refuses_key (uid : Z) (ym : string) :
  contains_slash ym = true \/ contains_nul ym = true ->
  open_refuses ("report_" +:+ str_int uid +:+ "_" +:+ ym +:+ ".pdf") = true.
Proof.
  intros Hk. unfold open_refuses.
  rewrite (contains_slash_app "report_"), (contains_slash_app (str_int uid)),
    (contains_slash_app "_"), (contains_slash_app ym).
  rewrite (contains_nul_app "report_"), (contains_nul_app (str_int uid)),
    (contains_nul_app "_"), (contains_nul_app ym).
  destruct Hk as [-> | ->]; rewrite ?orb_true_r; reflexivity.
Qed.

(** A text is cut inside its first part if that has a NUL, and otherwise
    inside the second. *)
Lemma upto_nul_app (a b : string) :
  upto_nul (a +:+ b)
  = if contains_nul a then upto_nul a else a +:+ upto_nul b.
Proof.
  induction a as [|c a IH]; [reflexivity |].
  rewrite string_app_cons. cbn [contains_nul upto_nul].
  destruct (Ascii.eqb c NUL); [reflexivity |]. cbn [orb]. rewrite IH.
  destruct (contains_nul a); [reflexivity |]. now rewrite string_app_cons.
Qed.

Lemma to_lower_nul (c : ascii) : to_lower c = NUL -> c = NUL.
Proof.
  unfold to_lower.
  destruct ((65 <=? N_of_ascii c) && (N_of_ascii c <=? 90))%N eqn:E; [| auto].
  apply andb_true_iff in E as [E1 E2]. apply N.leb_le in E1, E2.
  intros Hz. apply (f_equal N_of_ascii) in Hz.
  rewrite N_ascii_embedding in Hz by lia. cbn in Hz. lia.
Qed.

(** A prefix test with a key that has no NUL does not see where the text
    is cut. *)
Lemma prefix_nocase_upto_nul (p d : string) :
  contains_nul p = false -> prefix_nocase p (upto_nul d) = prefix_nocase p d.
Proof.
  revert d. induction p as [|a p IH]; intros d Hn; [now destruct d |].
  cbn [contains_nul] in Hn. apply orb_false_iff in Hn as [Ha Hp].
  destruct d as [|c d]; [reflexivity |]. cbn [upto_nul].
  destruct (Ascii.eqb_spec c NUL) as [-> | Hc].
  - cbn [prefix_nocase].
    destruct (Ascii.eqb_spec (to_lower NUL) (to_lower a)) as [E | _]; [| reflexivity].
    symmetry in E. apply to_lower_nul in E. subst a. discriminate Ha.
  - cbn [prefix_nocase]. now rewrite IH.
Qed.

Lemma no_wildcard_no_nul_pattern (p : string) :
  contains_nul p = false -> upto_nul (p +:+ "%") = p +:+ "%".
Proof.
  intros Hn. apply upto_nul_id. rewrite contains_nul_app, Hn. reflexivity.
Qed.

(** The same for [LIKE] itself, when the key has no NUL either. *)
Lemma like_prefix_nocase (p s : string) :
  has_wildcard p = false -> contains_nul p = false ->
  like (p +:+ "%") s = prefix_nocase p s.
Proof.
  intros Hw Hn. unfold like. rewrite (no_wildcard_no_nul_pattern _ Hn).
  rewrite (like_chars_prefix_nocase _ _ Hw). now apply prefix_nocase_upto_nul.
Qed.

(** A key with a NUL: the pattern ends there, before the [%]. *)
Lemma like_nul_key (k s : string) :
  contains_nul k = true -> like (k +:+ "%") s = like k s.
Proof. intros Hn. unfold like. now rewrite upto_nul_app, Hn. Qed.

Lemma caseless_code (p : ascii) :
  caseless p = true -> (N_of_ascii p = 45 \/ 48 <= N_of_ascii p <= 57)%N.
Proof.
  unfold caseless, is_digit. intros Hc. apply orb_true_iff in Hc as [Hd | He].
  - apply andb_true_iff in Hd as [H1 H2]. apply N.leb_le in H1, H2. now right.
  - apply Ascii.eqb_eq in He. subst p. now left.
Qed.

Lemma caseless_not_wildcard (p : ascii) : caseless p = true -> wildcard p = false.
Proof.
  intros Hc. apply caseless_code in Hc. unfold wildcard.
  apply orb_false_iff. split; apply Ascii.eqb_neq; intros ->; simpl in Hc; lia.
Qed.

Lemma to_lower_caseless (c p : ascii) :
  caseless p = true ->
  Ascii.eqb (to_lower c) (to_lower p) = Ascii.eqb c p.
Proof.
  intros Hc. apply caseless_code in Hc.
  assert (Hp : to_lower p = p).
  { unfold to_lower.
    destruct ((65 <=? N_of_ascii p) && (N_of_ascii p <=? 90))%N eqn:E; [| reflexivity].
    apply andb_true_iff in E as [E1 E2]. apply N.leb_le in E1, E2. lia. }
  rewrite Hp. unfold to_lower.
  destruct ((65 <=? N_of_ascii c) && (N_of_ascii c <=? 90))%N eqn:E; [| reflexivity].
  apply andb_true_iff in E as [E1 E2]. apply N.leb_le in E1, E2.
  assert (N1 : ascii_of_N (N_of_ascii c + 32) <> p).
  { intros <-. rewrite N_ascii_embedding in Hc by lia. lia. }
  assert (N2 : c <> p) by (intros <-; lia).
  apply Ascii.eqb_neq in N1, N2. now rewrite N1, N2.
Qed.

Lemma caseless_not_nul (p : ascii) : caseless p = true -> Ascii.eqb p NUL = false.
Proof.
  intros Hc. apply caseless_code in Hc.
  apply Ascii.eqb_neq. intros ->. cbn in Hc. lia.
Qed.

Lemma all_caseless_no_nul (p : string) :
  all_caseless p = true -> contains_nul p = false.
Proof.
  induction p as [|a p IH]; [reflexivity |]. cbn [all_caseless contains_nul].
  intros Hc. apply andb_true_iff in Hc as [Ha Hp].
  now rewrite (caseless_not_nul _ Ha), IH.
Qed.

Lemma all_caseless_no_wildcard (p : string) :
  all_caseless p = true -> has_wildcard p = false.
Proof.
  induction p as [|a p IH]; [reflexivity |]. cbn [all_caseless has_wildcard].
  intros Hc. apply andb_true_iff in Hc as [Ha Hp].
  now rewrite (caseless_not_wildcard _ Ha), IH.
Qed.

(** For a key of digits and hyphens the prefix test is exact: the first
    [length p] characters of the text are the key. *)
Lemma prefix_nocase_caseless (p s : string) :
  all_caseless p = true ->
  prefix_nocase p s = true <-> substring 0 (String.length p) s = p.
Proof.
  revert s. induction p as [|a p IH]; intros s Hc.
  - destruct s; simpl; split; auto.
  - cbn [all_caseless] in Hc. apply andb_true_iff in Hc as [Ha Hp].
    destruct s as [|c s]; cbn [prefix_nocase String.length substring].
    + split; discriminate.
    + rewrite (to_lower_caseless _ _ Ha), andb_true_iff, Ascii.eqb_eq, (IH _ Hp).
      split; [intros [-> ->]; reflexivity | intros [= -> E]; now rewrite E].
Qed.

Lemma well_formed_month_key_shape (k : string) :
  well_formed_month_key k = true ->
  all_caseless k = true /\ String.length k = 7%nat.
Proof.
  unfold well_formed_month_key.
  destruct k as [|y1 [|y2 [|y3 [|y4 [|d [|m1 [|m2 [|? ?]]]]]]]]; try discriminate.
  intros Hk. do 6 (apply andb_true_iff in Hk as [Hk ?]).
  split; [| reflexivity].
  cbn [all_caseless]. unfold caseless.
  repeat (apply andb_true_iff; split); try reflexivity;
    apply orb_true_iff; auto.
Qed.

(** For a well-formed key the LIKE pattern of the report and the slice
    [bill_date[:7]] of the statistics select the same dates. *)
Lemma like_month_key (k date : string) :
  well_formed_month_key k = true ->
  like (k +:+ "%") date = true <-> slice7 date = k.
Proof.
  intros Hk. apply well_formed_month_key_shape in Hk as [Hc Hl].
  rewrite (like_prefix_nocase _ _ (all_caseless_no_wildcard _ Hc)
             (all_caseless_no_nul _ Hc)).
  rewrite (prefix_nocase_caseless _ _ Hc), Hl. reflexivity.
Qed.

End LikePattern.

(** ** Selection by month key *)

Section Selection.
Context `{PyFloat} `{!SqlEngine}.

Lemma filter_permutation {A} (f : A -> bool) (l l' : list A) :
  Permutation l l' -> Permutation (List.filter f l) (List.filter f l').
Proof.
  induction 1 as [| x l l' _ IH | x y l | l l' l'' _ IH1 _ IH2]; simpl.
  - constructor.
  - destruct (f x); [now constructor | exact IH].
  - destruct (f x), (f y); try reflexivity. apply perm_swap.
  - now transitivity (List.filter f l').
Qed.

Lemma matching_In (w : World) uid ym (b : Bill) :
  In b (matching w uid ym)
  <-> In b (bills w) /\ user_id b = uid /\ like (ym +:+ "%") (bill_date b) = true.
Proof.
  unfold matching, report_where. rewrite filter_In, andb_true_iff, Z.eqb_eq.
  tauto.
Qed.

Lemma bill_page_not_message files (b : Bill) : bill_page files b <> no_bills_page.
Proof. unfold bill_page, no_bills_page. intros [=]. Qed.

Lemma report_pages_message_iff (w : World) uid ym :
  report_pages w uid ym = [no_bills_page] <-> matching w uid ym = [].
Proof.
  rewrite <- report_rows_nil_iff. unfold report_pages.
  destruct (report_rows w uid ym) as [|b rows].
  - rewrite build_pages_nil. tauto.
  - rewrite build_pages_cons. cbn [List.map]. split; [| discriminate].
    intros E. exfalso. apply (bill_page_not_message (image_files w) b). congruence.
Qed.

Lemma monthly_report_open_fails (w : World) ym token uid :
  get_current_user_id w token = Some uid ->
  snd (monthly_report w ym token (Some open_fails)) = OSError
  /\ report_files (fst (monthly_report w ym token (Some open_fails)))
     = report_files w.
Proof.
  intros Hu. unfold monthly_report. rewrite Hu.
  destruct (build_pages _ _) as [|first rest] eqn:E.
  - now apply build_pages_not_nil in E.
  - split; reflexivity.
Qed.

(** C7, as the code has it.  The selection never raises; a request raises
    only where the report file is opened, and the open refuses a key that
    puts a slash, a NUL or too many bytes into the file name; then nothing
    is written.  For every other key the handler returns.  The selection
    is the pattern match [bill_date LIKE year_month || '%'] on the owner's
    bills.  For a key without the wildcards [%] and [_] and without a NUL
    that is a left-anchored prefix test up to ASCII case over the whole
    key, of whatever length; for a well-formed key [YYYY-MM] it is equality
    of the first seven characters; for a key with a NUL the pattern ends at
    the NUL.  The written document is the one-page message document exactly
    when no bill of the owner matches the pattern. *)
Theorem month_key_selects_by_like (w : World) (ym token : string) (uid : Z) :
  get_current_user_id w token = Some uid ->
  let name := "report_" +:+ str_int uid +:+ "_" +:+ ym +:+ ".pdf" in
  let request := monthly_report w ym token (fault_at_open uid ym) in
  (contains_slash ym = true \/ contains_nul ym = true -> open_refuses name = true)
  /\ (open_refuses name = true ->
      snd request = OSError /\ report_files (fst request) = report_files w)
  /\ (open_refuses name = false ->
      snd request
      = Returned {| resp_path := report_path_of uid ym;
                    resp_filename := "report_" +:+ ym +:+ ".pdf";
                    resp_media_type := "application/pdf" |})
  /\ (forall b : Bill,
        In b (matching w uid ym)
        <-> In b (bills w) /\ user_id b = uid
            /\ like (ym +:+ "%") (bill_date b) = true)
  /\ (has_wildcard ym = false -> contains_nul ym = false ->
      forall date, like (ym +:+ "%") date = prefix_nocase ym date)
  /\ (contains_nul ym = true ->
      forall date, like (ym +:+ "%") date = like ym date)
  /\ (well_formed_month_key ym = true ->
      forall date, like (ym +:+ "%") date = true <-> slice7 date = ym)
  /\ (open_refuses name = false ->
      (report_files (fst request) !! report_path_of uid ym = Some [no_bills_page]
       <-> matching w uid ym = [])).
Proof.
  intros Hu name request. subst request. unfold fault_at_open. fold name.
  split; [apply open_refuses_key |].
  split.
  { intros Hr. rewrite Hr. exact (monthly_report_open_fails w ym token uid Hu). }
  split.
  { intros Hr. rewrite Hr, (monthly_report_returns _ _ _ _ Hu). reflexivity. }
  split; [apply matching_In |].
  split; [intros Hw Hn date; now apply like_prefix_nocase |].
  split; [intros Hn date; now apply like_nul_key |].
  split; [intros Hk date; now apply like_month_key |].
  intros Hr. rewrite Hr, (monthly_report_returns _ _ _ _ Hu).
  cbn [fst report_files with_reports].
  rewrite lookup_insert_eq, <- report_pages_message_iff.
  split; [now intros [= ->] | now intros ->].
Qed.

(** *** The monthly totals *)

Lemma sum_from_Some (a : float) amounts :
  sum_from (Some a) amounts = Some (fold_left float_add amounts a).
Proof.
  revert a. induction amounts as [|x xs IH]; intros a; [reflexivity |].
  cbn [sum_from fold_left default]. apply IH.
Qed.

Lemma sum_from_None amounts :
  sum_from None amounts
  = match amounts with
    | [] => None
    | _ :: _ => Some (fold_left float_add amounts float_zero)
    end.
Proof.
  destruct amounts as [|x xs]; [reflexivity |].
  change (sum_from None (x :: xs)) with (sum_from (Some (float_add float_zero x)) xs).
  rewrite sum_from_Some. reflexivity.
Qed.

Lemma monthly_totals_step (rows : list (string * float)) (acc : gmap string float) k :
  fold_left stats_step rows acc !! k
  = sum_from (acc !! k) (List.map snd (List.filter (in_month k) rows)).
Proof.
  revert acc. induction rows as [|[d a] rows IH]; intros acc; [reflexivity |].
  cbn [fold_left List.filter]. rewrite IH. unfold in_month at 2. cbn [fst stats_step].
  destruct (String.eqb_spec (slice7 d) k) as [-> | Hne].
  - now rewrite lookup_insert_eq.
  - now rewrite lookup_insert_ne.
Qed.

Lemma filter_map_swap {A B} (f : A -> B) (p : B -> bool) (l : list A) :
  List.filter p (List.map f l) = List.map f (List.filter (fun x => p (f x)) l).
Proof.
  induction l as [|x l IH]; [reflexivity |]. simpl.
  destruct (p (f x)); simpl; now rewrite IH.
Qed.

Lemma monthly_totals_lookup (w : World) uid k :
  monthly_totals_of (stats_rows w uid) !! k
  = match contributing w uid k with
    | [] => None
    | sel => Some (fold_left float_add (List.map amount sel) float_zero)
    end.
Proof.
  unfold monthly_totals_of, stats_rows. rewrite monthly_totals_step, lookup_empty.
  rewrite filter_map_swap, map_map. cbn [snd]. rewrite sum_from_None.
  unfold contributing, in_month. cbn [fst].
  destruct (List.filter _ _); reflexivity.
Qed.

Lemma report_where_month (uid : Z) (k : string) (b : Bill) :
  well_formed_month_key k = true ->
  report_where uid k b = stats_where uid b && String.eqb (slice7 (bill_date b)) k.
Proof.
  intros Hk. unfold report_where, stats_where. f_equal.
  apply eq_true_iff_eq. rewrite (like_month_key _ _ Hk). symmetry.
  apply String.eqb_eq.
Qed.

Lemma filter_filter {A} (f g : A -> bool) (l : list A) :
  List.filter f (List.filter g l) = List.filter (fun x => g x && f x) l.
Proof.
  induction l as [|x l IH]; [reflexivity |]. simpl.
  destruct (g x); simpl; [destruct (f x) |]; now rewrite IH.
Qed.

(** C9.  For a well-formed key K, a stored bill is added under K by the
    loop of [stats] exactly when the report query for K selects it; the
    bills added under K are the rows of the report for K, each once; and
    the total under K is absent when there is none, and otherwise the float
    sum, from 0.0 and in fetch order, of exactly their amounts. *)
Theorem stats_and_report_agree (w : World) (uid : Z) (k : string) :
  well_formed_month_key k = true ->
  (forall b : Bill,
     In b (bills w) ->
     (stats_where uid b = true /\ slice7 (bill_date b) = k
      <-> report_where uid k b = true))
  /\ (forall b : Bill, In b (contributing w uid k) <-> In b (report_rows w uid k))
  /\ Permutation (contributing w uid k) (report_rows w uid k)
  /\ monthly_totals_of (stats_rows w uid) !! k
     = match contributing w uid k with
       | [] => None
       | sel => Some (fold_left float_add (List.map amount sel) float_zero)
       end.
Proof.
  intros Hk.
  assert (HP : Permutation (contributing w uid k) (report_rows w uid k)).
  { unfold contributing, report_rows.
    rewrite (filter_permutation _ _ _ (order_by_permutation _)).
    rewrite order_by_permutation, filter_filter.
    erewrite filter_ext; [reflexivity |].
    intros b. now rewrite report_where_month. }
  split.
  { intros b _. rewrite (report_where_month _ _ _ Hk), andb_true_iff, String.eqb_eq.
    tauto. }
  split.
  { intros b. split; apply Permutation_in; [exact HP | now symmetry]. }
  split; [exact HP | apply monthly_totals_lookup].
Qed.

End Selection.

(** ** Page order *)

Section PageOrder.
Context `{PyFloat}.















End PageOrder.

(** ** Writing the file *)

Section Publication.
Context `{PyFloat} `{!SqlEngine}.

Lemma save_other_paths fs path first rest fault (p : string) :
  p <> path -> fst (save fs path first rest fault) !! p = fs !! p.
Proof.
  intros Hp. unfold save.
  destruct fault as [[|k]|]; [| destruct (k <? _)%nat |];
    cbn [fst]; (reflexivity || apply lookup_insert_ne); congruence.
Qed.




(** C8.  The filename suggested to the client is made of the month key
    alone: two returned responses for the same month key carry the same
    filename, whatever the stores, the tokens and hence the owners; the
    path of the file on disk, by contrast, carries the owner's id. *)
Theorem suggested_filename_ignores_owner
    (w1 w2 : World) (ym token1 token2 : string) (fault1 fault2 : option Fault)
    (r1 r2 : FileResponse) :
  snd (monthly_report w1 ym token1 fault1) = Returned r1 ->
  snd (monthly_report w2 ym token2 fault2) = Returned r2 ->
  resp_filename r1 = resp_filename r2
  /\ resp_filename r1 = "report_" +:+ ym +:+ ".pdf"
  /\ exists uid1,
       get_current_user_id w1 token1 = Some uid1
       /\ resp_path r1
          = "user_data/report_" +:+ str_int uid1 +:+ "_" +:+ ym +:+ ".pdf".
Proof.
  assert (G : forall (w : World) token fault r,
             snd (monthly_report w ym token fault) = Returned r ->
             resp_filename r = "report_" +:+ ym +:+ ".pdf"
             /\ exists uid, get_current_user_id w token = Some uid
                  /\ resp_path r = report_path_of uid ym).
  { intros w token fault r. unfold monthly_report.
    destruct (get_current_user_id w token) as [uid|]; [| discriminate].
    destruct (build_pages _ _) as [|first rest]; [discriminate |].
    destruct (save _ _ _ _ _) as [fs []]; [| discriminate].
    cbn [snd]. intros [= <-]. cbn [resp_filename resp_path]. eauto. }
  intros H1 H2. apply G in H1 as (F1 & uid1 & U1 & P1), H2 as (F2 & _).
  split; [congruence |]. split; [exact F1 |].
  exists uid1. split; [exact U1 |]. rewrite P1. reflexivity.
Qed.

End Publication.

(** ** The sample store, run *)

Import Sample.

Definition by_storage_order : SqlEngine := @storage_order_engine hundredths.

(** The sample store after an earlier request of alice for March 2024 that
    found no bill. *)
Definition world_with_old_report : World :=
  with_reports world {[ report_path_of 1 "2024-03" := [no_bills_page] ]}.

Definition alice_march_response : FileResponse :=
  {| resp_path := "user_data/report_1_2024-03.pdf";
     resp_filename := "report_2024-03.pdf";
     resp_media_type := "application/pdf" |}.

Definition bob_march_response : FileResponse :=
  {| resp_path := "user_data/report_2_2024-03.pdf";
     resp_filename := "report_2024-03.pdf";
     resp_media_type := "application/pdf" |}.

Section SampleRuns.
Local Existing Instance by_storage_order.

Example alice_march_rows :
  report_rows world 1 "2024-03" = [march_02; march_15; march_28].
Proof. reflexivity. Qed.

Example alice_march_first_text :
  page_metadata (bill_page (image_files world) march_02)
  = ["Shop: Grocer" +:+ nl +:+ "Amount: 12.5" +:+ nl +:+ "Date: 2024-03-02 10:15"].
Proof. reflexivity. Qed.

Example alice_march_images :
  List.map (fun p => List.map (fun i => im_size (fst i)) (page_images p))
    (report_pages world 1 "2024-03")
  = [[(450, 600)%Z]; [(300, 200)%Z]; [(200, 200)%Z]].
Proof. vm_compute. reflexivity. Qed.

Example alice_april_pages : report_pages world 1 "2024-04" = [no_bills_page].
Proof. vm_compute. reflexivity. Qed.

Example alice_totals :
  stats world "tok-a" = Some {[ "2024-03" := 6360%Z ]}.
Proof. vm_compute. reflexivity. Qed.

(** Three bills of alice in March 2024: three pages. *)
Lemma report_has_one_page_per_bill_sample :
  get_current_user_id world "tok-a" = Some 1%Z
  /\ (1 <= length (matching world 1 "2024-03"))%nat
  /\ exists pages,
       report_files (fst (monthly_report world "2024-03" "tok-a" None))
         !! report_path_of 1 "2024-03" = Some pages
       /\ length pages = 3%nat.
Proof.
  split; [reflexivity |]. split; [vm_compute; lia |].
  destruct (report_has_one_page_per_bill world "2024-03" "tok-a" 1)
    as (pages & Hfile & Hlen & _); [reflexivity | vm_compute; lia |].
  exists pages. split; [exact Hfile | exact Hlen].
Defined.

(** No bill of alice in April 2024: the message page. *)
Lemma empty_month_gives_message_page_sample :
  get_current_user_id world "tok-a" = Some 1%Z
  /\ matching world 1 "2024-04" = []
  /\ report_files (fst (monthly_report world "2024-04" "tok-a" None))
       !! report_path_of 1 "2024-04" = Some [no_bills_page].
Proof.
  split; [reflexivity |]. split; [reflexivity |].
  apply (empty_month_gives_message_page world "2024-04" "tok-a" 1);
    reflexivity.
Defined.

(** The image of the third March bill of alice is not in the store. *)
Lemma unreadable_image_gets_placeholder_sample :
  get_current_user_id world "tok-a" = Some 1%Z
  /\ report_rows world 1 "2024-03" !! 2%nat = Some march_28
  /\ image_files world !! os_path_join "user_data/images" (filename march_28) = None
  /\ snd (monthly_report world "2024-03" "tok-a" None) = Returned alice_march_response.
Proof.
  split; [reflexivity |]. split; [reflexivity |]. split; [vm_compute; reflexivity |].
  apply (unreadable_image_gets_placeholder world "2024-03" "tok-a" 1 2 march_28);
    [reflexivity | reflexivity | vm_compute; reflexivity].
Defined.



(** The key 2024-03 has no wildcard and no NUL, is well formed and gives a
    file name the open takes. *)
Lemma month_key_selects_by_like_sample :
  get_current_user_id world "tok-a" = Some 1%Z
  /\ has_wildcard "2024-03" = false
  /\ contains_nul "2024-03" = false
  /\ well_formed_month_key "2024-03" = true
  /\ open_refuses ("report_" +:+ str_int 1 +:+ "_" +:+ "2024-03" +:+ ".pdf") = false
  /\ (like ("2024-03" +:+ "%") "2024-03-15" = true <-> slice7 "2024-03-15" = "2024-03")
  /\ snd (monthly_report world "2024-03" "tok-a" (fault_at_open 1 "2024-03"))
     = Returned alice_march_response.
Proof.
  split; [reflexivity |]. split; [reflexivity |]. split; [reflexivity |].
  split; [reflexivity |]. split; [reflexivity |].
  destruct (month_key_selects_by_like world "2024-03" "tok-a" 1)
    as (_ & _ & Hret & _ & _ & _ & Hkey & _); [reflexivity |].
  split; [apply Hkey; reflexivity |].
  apply Hret. reflexivity.
Defined.

(** The key 2024/03 puts a slash into the file name: the request raises
    and writes nothing. *)
Example slash_key_raises_at_open :
  snd (monthly_report world "2024/03" "tok-a" (fault_at_open 1 "2024/03")) = OSError
  /\ fst (monthly_report world "2024/03" "tok-a" (fault_at_open 1 "2024/03")) = world.
Proof. vm_compute. split; reflexivity. Qed.

(** alice and bob ask for March 2024. *)
Lemma suggested_filename_ignores_owner_sample :
  snd (monthly_report world "2024-03" "tok-a" None) = Returned alice_march_response
  /\ snd (monthly_report world "2024-03" "tok-b" None) = Returned bob_march_response
  /\ resp_filename alice_march_response = resp_filename bob_march_response
  /\ resp_path alice_march_response <> resp_path bob_march_response.
Proof.
  split; [vm_compute; reflexivity |]. split; [vm_compute; reflexivity |].
  split; [| discriminate].
  apply (suggested_filename_ignores_owner world world "2024-03" "tok-a" "tok-b"
           None None alice_march_response bob_march_response);
    vm_compute; reflexivity.
Defined.

(** The three March bills of alice and her total for 2024-03. *)
Lemma stats_and_report_agree_sample :
  well_formed_month_key "2024-03" = true
  /\ Permutation (contributing world 1 "2024-03") (report_rows world 1 "2024-03")
  /\ monthly_totals_of (stats_rows world 1) !! "2024-03" = Some 6360%Z.
Proof.
  split; [reflexivity |].
  destruct (stats_and_report_agree world 1 "2024-03")
    as (_ & _ & Hperm & Htotal); [reflexivity |].
  split; [exact Hperm |].
  etransitivity; [exact Htotal | vm_compute; reflexivity].
Defined.

(** *** Where the code departs from the specification *)


(** C7 fails as stated.  The key 2024 is not a well-formed month key, yet
    it selects every 2024 bill of alice and the report has three bill
    pages: the pattern is a prefix test over the four characters of the
    key, not over seven.  The key ____-03, with four wildcards, selects
    the same bills. *)
Lemma short_key_selects_whole_year :
  well_formed_month_key "2024" = false
  /\ matching world 1 "2024" = [march_28; march_02; march_15]
  /\ report_files (fst (monthly_report world "2024" "tok-a" None))
       !! report_path_of 1 "2024"
     = Some (List.map (bill_page (image_files world)) [march_02; march_15; march_28])
  /\ like ("2024" +:+ "%") "2024-03-02" = true
  /\ slice7 "2024-03-02" <> "2024"
  /\ well_formed_month_key "____-03" = false
  /\ matching world 1 "____-03" = [march_28; march_02; march_15].
Proof.
  split; [reflexivity |]. split; [reflexivity |].
  split; [vm_compute; reflexivity |]. split; [reflexivity |].
  split; [discriminate |]. split; reflexivity.
Qed.

End SampleRuns.

(** ** Accounts *)

Section Accounts.
Context `{PyFloat} `{!Libraries}.
Local Open Scope Z_scope.

Lemma find_snoc {A} (f : A -> bool) (l : list A) (x : A) :
  List.find f (l ++ [x])
  = match List.find f l with
    | Some y => Some y
    | None => if f x then Some x else None
    end.
Proof.
  induction l as [|a l IH]; simpl; [reflexivity |].
  destruct (f a); [reflexivity | exact IH].
Qed.

Lemma next_rowid_above (ids : list Z) (i : Z) : In i ids -> i < next_rowid ids.
Proof.
  unfold next_rowid. induction ids as [|j ids IH]; intros Hi; [destruct Hi |].
  cbn [fold_right]. destruct Hi as [-> | Hi]; [lia |].
  specialize (IH Hi). lia.
Qed.

Lemma next_rowid_fresh (ids : list Z) : ~ In (next_rowid ids) ids.
Proof. intros Hi. apply next_rowid_above in Hi. lia. Qed.

Lemma next_rowid_positive (ids : list Z) : 1 <= next_rowid ids.
Proof.
  unfold next_rowid. induction ids as [|j ids IH]; cbn [fold_right]; lia.
Qed.

Lemma user_named_None (w : World) (name : string) :
  user_named w name = None <-> ~ In name (List.map username (users w)).
Proof.
  unfold user_named. split.
  - intros Hn Hin. apply in_map_iff in Hin as (u & <- & Hu).
    apply (find_none _ _ Hn) in Hu. now rewrite String.eqb_refl in Hu.
  - intros Hn. destruct (List.find _ _) as [u|] eqn:E; [| reflexivity].
    apply find_some in E as [Hu E]. apply String.eqb_eq in E.
    exfalso. apply Hn. rewrite <- E. now apply in_map.
Qed.

Lemma signup_done (w w' : World) (auth : AuthRequest) (tok t : string) :
  signup w auth tok = (w', Done t) ->
  user_named w (auth_username auth) = None
  /\ t = tok
  /\ w' = {| users := users w ++
                [{| user_rowid := next_rowid (List.map user_rowid (users w));
                    username := auth_username auth;
                    password_hash := sha256_hexdigest (auth_password auth);
                    user_token := tok |}];
             bills := bills w; image_files := image_files w;
             report_files := report_files w |}.
Proof.
  unfold signup. destruct (user_named w (auth_username auth)); [discriminate |].
  intros [= <- <-]. auto.
Qed.

(** X1.  After a signup, the same name logs in with every password that has
    the digest of the one given, and gets the token the signup returned;
    every password with another digest gets 401. *)
Theorem signup_then_login (w w' : World) (auth : AuthRequest) (tok t pw : string) :
  signup w auth tok = (w', Done t) ->
  login w' {| auth_username := auth_username auth; auth_password := pw |}
  = if String.eqb (sha256_hexdigest pw) (sha256_hexdigest (auth_password auth))
    then Done t
    else HTTPException 401 "Invalid credentials".
Proof.
  intros Hs. apply signup_done in Hs as (Hfree & -> & ->).
  unfold login, user_named in *. cbn [users auth_username auth_password].
  rewrite find_snoc, Hfree. cbn [username]. rewrite String.eqb_refl.
  cbn [password_hash user_token].
  destruct (String.eqb _ _); reflexivity.
Qed.

(** X2.  A signup, accepted or refused, changes no login under another name. *)
Theorem signup_keeps_other_logins (w : World) (auth other : AuthRequest) (tok : string) :
  auth_username other <> auth_username auth ->
  login (fst (signup w auth tok)) other = login w other.
Proof.
  intros Hne. unfold signup.
  destruct (user_named w (auth_username auth)) eqn:E; [reflexivity |].
  cbn [fst]. unfold login, user_named. cbn [users].
  rewrite find_snoc. cbn [username].
  destruct (List.find _ (users w)); [reflexivity |].
  destruct (String.eqb_spec (auth_username auth) (auth_username other)) as [E'|_];
    [congruence | reflexivity].
Qed.

(** X3.  A signup whose token no user holds yet: the token authenticates as the
    new user, whose id no earlier user has; and whatever the token, every
    token that authenticated before authenticates as the same user. *)
Theorem signup_token_authenticates (w w' : World) (auth : AuthRequest) (tok t : string) :
  signup w auth tok = (w', Done t) ->
  (~ In tok (List.map user_token (users w)) ->
   exists uid, get_current_user_id w' t = Some uid
               /\ ~ In uid (List.map user_rowid (users w)))
  /\ (forall t' uid, get_current_user_id w t' = Some uid ->
                     get_current_user_id w' t' = Some uid).
Proof.
  intros Hs. apply signup_done in Hs as (_ & -> & ->).
  unfold get_current_user_id. cbn [users]. split.
  - intros Hfresh. eexists. rewrite find_snoc.
    destruct (List.find _ (users w)) as [u|] eqn:E.
    + apply find_some in E as [Hu E]. apply String.eqb_eq in E.
      exfalso. apply Hfresh. rewrite <- E. now apply in_map.
    + cbn [user_token]. rewrite String.eqb_refl. cbn.
      split; [reflexivity | apply next_rowid_fresh].
  - intros t' uid. rewrite find_snoc.
    destruct (List.find _ (users w)); [auto | discriminate].
Qed.

End Accounts.

(** ** Names of files *)

Section FileNames.

Lemma string_app_length (a b : string) :
  String.length (a +:+ b) = (String.length a + String.length b)%nat.
Proof.
  induction a as [|c a IH]; [reflexivity |].
  rewrite string_app_cons. cbn [String.length]. now rewrite IH.
Qed.

Lemma string_app_inv_head (p a b : string) : p +:+ a = p +:+ b -> a = b.
Proof.
  induction p as [|c p IH]; [auto |].
  rewrite !string_app_cons. intros [= E]. auto.
Qed.

Lemma string_app_inv_tail (a b t : string) : a +:+ t = b +:+ t -> a = b.
Proof.
  revert b. induction a as [|c a IH]; intros [|d b] E.
  - reflexivity.
  - change (t = String d (b +:+ t)) in E. apply (f_equal String.length) in E.
    cbn [String.length] in E. rewrite string_app_length in E. lia.
  - change (String c (a +:+ t) = t) in E. apply (f_equal String.length) in E.
    cbn [String.length] in E. rewrite string_app_length in E. lia.
  - rewrite !string_app_cons in E. injection E as -> E. f_equal. now apply IH.
Qed.

Lemma uint_text_caseless (d : Decimal.uint) :
  all_caseless (NilEmpty.string_of_uint d) = true.
Proof. induction d; cbn [NilEmpty.string_of_uint all_caseless]; auto. Qed.

Lemma uint_text_nonempty (d : Decimal.uint) :
  exists c s, NilZero.string_of_uint d = String c s.
Proof. destruct d; cbn; eauto. Qed.

Lemma str_int_caseless (n : Z) : all_caseless (str_int n) = true.
Proof.
  unfold str_int.
  assert (U : forall d, all_caseless (NilZero.string_of_uint d) = true).
  { intros d. destruct d; try apply uint_text_caseless. reflexivity. }
  destruct (Z.to_int n) as [d|d]; cbn [NilZero.string_of_int all_caseless];
    [apply U | rewrite U; reflexivity].
Qed.

Lemma str_int_nonempty (n : Z) : exists c s, str_int n = String c s.
Proof.
  unfold str_int. destruct (Z.to_int n) as [d|d]; cbn [NilZero.string_of_int];
    [apply uint_text_nonempty | eauto].
Qed.

Lemma str_int_inj (n m : Z) : str_int n = str_int m -> n = m.
Proof.
  unfold str_int. intros E. apply DecimalZ.to_int_inj.
  assert (N : forall z, Z.to_int z <> Decimal.Pos Decimal.Nil
                        /\ Z.to_int z <> Decimal.Neg Decimal.Nil).
  { intros [|q|q]; cbn; split; try discriminate; intros [= E'];
      now apply DecimalPos.Unsigned.to_uint_nonnil in E'. }
  apply (f_equal NilZero.int_of_string) in E.
  rewrite !NilZero.isi in E by apply N. congruence.
Qed.

Lemma caseless_not_slash (c : ascii) : caseless c = true -> Ascii.eqb c "/" = false.
Proof.
  intros Hc. apply Ascii.eqb_neq. intros ->. discriminate Hc.
Qed.

Lemma all_caseless_no_slash (s : string) :
  all_caseless s = true -> contains_slash s = false.
Proof.
  induction s as [|c s IH]; [reflexivity |]. cbn [all_caseless contains_slash].
  intros Hc. apply andb_true_iff in Hc as [Hc Hs].
  now rewrite (caseless_not_slash _ Hc), IH.
Qed.

(** The stored name has a slash exactly when the client's filename has. *)
Lemma unique_name_slash (timestamp : Z) (name : string) :
  contains_slash (str_int timestamp +:+ "_" +:+ name) = contains_slash name.
Proof.
  rewrite contains_slash_app, (all_caseless_no_slash _ (str_int_caseless _)).
  reflexivity.
Qed.

(** The path of an uploaded image, spelled out. *)
Lemma save_path_spelled (timestamp : Z) (name : string) :
  os_path_join "user_data/images" (str_int timestamp +:+ "_" +:+ name)
  = "user_data/images/" +:+ str_int timestamp +:+ "_" +:+ name.
Proof.
  unfold os_path_join.
  destruct (str_int_nonempty timestamp) as (c & s & E).
  pose proof (str_int_caseless timestamp) as Hc. rewrite E in Hc |- *.
  cbn [all_caseless] in Hc. apply andb_true_iff in Hc as [Hc _].
  apply caseless_not_slash in Hc.
  rewrite string_app_cons. cbn [String.prefix].
  destruct (Ascii.ascii_dec "/" c) as [<- | _]; [discriminate Hc | reflexivity].
Qed.

(** Texts of digits and hyphens on both sides of an underscore: the
    underscore splits both sides alike. *)
Lemma split_at_underscore (a b x y : string) :
  all_caseless a = true -> all_caseless b = true ->
  a +:+ "_" +:+ x = b +:+ "_" +:+ y -> a = b /\ x = y.
Proof.
  revert b. induction a as [|c a IH]; intros [|d b] Ha Hb E.
  - injection E as E. auto.
  - rewrite string_app_cons in E. injection E as <- _.
    cbn [all_caseless] in Hb. discriminate Hb.
  - rewrite string_app_cons in E. injection E as -> _.
    cbn [all_caseless] in Ha. discriminate Ha.
  - rewrite !string_app_cons in E. injection E as -> E.
    cbn [all_caseless] in Ha, Hb.
    apply andb_true_iff in Ha as [_ Ha], Hb as [_ Hb].
    destruct (IH b Ha Hb E) as [-> ->]. auto.
Qed.

(** The report path tells the owner and the month key apart. *)
Lemma report_path_of_inj (uid1 uid2 : Z) (ym1 ym2 : string) :
  report_path_of uid1 ym1 = report_path_of uid2 ym2 -> uid1 = uid2 /\ ym1 = ym2.
Proof.
  change (report_path_of uid1 ym1)
    with ("user_data/report_" +:+ str_int uid1 +:+ "_" +:+ ym1 +:+ ".pdf").
  change (report_path_of uid2 ym2)
    with ("user_data/report_" +:+ str_int uid2 +:+ "_" +:+ ym2 +:+ ".pdf").
  intros E. apply string_app_inv_head in E.
  apply split_at_underscore in E as [Eu Ey]; try apply str_int_caseless.
  split; [now apply str_int_inj | now apply string_app_inv_tail in Ey].
Qed.

End FileNames.

(** ** Uploads *)

Section Uploads.
Context `{PyFloat} `{!Libraries} `{!SqlEngine}.
Local Open Scope Z_scope.

(** The row an accepted upload inserts. *)
Definition uploaded_row (w : World) (req : UploadRequest) (uid timestamp : Z)
    (utcnow_iso : string) : Bill :=
  {| rowid := next_rowid (List.map rowid (bills w));
     user_id := uid;
     filename := str_int timestamp +:+ "_" +:+ req_filename req;
     amount := sqlite_real (req_amount req);
     bill_date := req_bill_date req;
     bill_time := req_bill_time req;
     shop := req_shop req;
     uploaded_at := utcnow_iso |}.

(** What [Image.open] makes of the file at [path] once it holds [data]. *)
Definition image_of_bytes (path data : string) : Image :=
  match image_size data with
  | Some (a, b) => {| im_size := (Z.pos a, Z.pos b); im_pixels := Photo path |}
  | None => Image_new (200, 200) "gray"
  end.

Lemma unique_name_refused (timestamp : Z) (name : string) :
  open_refuses (str_int timestamp +:+ "_" +:+ name) = false ->
  contains_slash name = false /\ contains_nul name = false.
Proof.
  unfold open_refuses. intros Hr.
  apply orb_false_iff in Hr as [Hr _]. apply orb_false_iff in Hr as [Hs Hn].
  rewrite unique_name_slash in Hs.
  rewrite (contains_nul_app (str_int timestamp)), (contains_nul_app "_") in Hn.
  apply orb_false_iff in Hn as [_ Hn]. auto.
Qed.

Lemma upload_done (w w' : World) (req : UploadRequest) ts iso (s : string) :
  upload_bill w req ts iso = (w', Done s) ->
  exists uid data,
    get_current_user_id w (req_token req) = Some uid
    /\ b64decode (req_image req) = Some data
    /\ contains_slash (req_filename req) = false
    /\ s = "success"
    /\ w' = {| users := users w;
               bills := bills w ++ [uploaded_row w req uid ts iso];
               image_files :=
                 write_image (image_files w)
                   ("user_data/images/" +:+ str_int ts +:+ "_" +:+ req_filename req)
                   data;
               report_files := report_files w |}.
Proof.
  unfold upload_bill.
  destruct (get_current_user_id w (req_token req)) as [uid|]; [| discriminate].
  destruct (b64decode (req_image req)) as [data|]; [| discriminate].
  rewrite save_path_spelled.
  destruct (open_refuses _) eqn:Er; [discriminate |].
  apply unique_name_refused in Er as [Hs _].
  destruct (is_nan (req_amount req)); [discriminate |].
  intros [= <- <-]. exists uid, data. auto.
Qed.



Lemma write_image_other files path data (p : string) :
  p <> path -> write_image files path data !! p = files !! p.
Proof.
  intros Hp. unfold write_image.
  destruct (image_size data); [apply lookup_insert_ne | apply lookup_delete_ne];
    congruence.
Qed.

Lemma write_image_resolve files (name data : string) :
  contains_slash name = false ->
  resolve_image (write_image files ("user_data/images/" +:+ name) data) name
  = image_of_bytes ("user_data/images/" +:+ name) data.
Proof.
  intros Hn. unfold resolve_image, Image_open, image_of_bytes, write_image.
  assert (E : os_path_join "user_data/images" name = "user_data/images/" +:+ name).
  { unfold os_path_join. destruct name as [|c name]; [reflexivity |].
    cbn [contains_slash] in Hn. apply orb_false_iff in Hn as [Hc _].
    apply Ascii.eqb_neq in Hc. cbn [String.prefix].
    destruct (Ascii.ascii_dec "/" c) as [<- | _]; [congruence | reflexivity]. }
  rewrite E. destruct (image_size data) as [[a b]|].
  - now rewrite lookup_insert_eq.
  - now rewrite lookup_delete_eq.
Qed.

(** X6.  An accepted upload inserts one bill under a new id, writes one file,
    directly inside [user_data/images], and changes nothing else: no other
    image, no report file, no user. *)
Theorem upload_writes_one_image_file
    (w w' : World) (req : UploadRequest) ts iso (s : string) :
  upload_bill w req ts iso = (w', Done s) ->
  exists row,
    bills w' = bills w ++ [row]
    /\ ~ In (rowid row) (List.map rowid (bills w))
    /\ filename row = str_int ts +:+ "_" +:+ req_filename req
    /\ contains_slash (filename row) = false
    /\ (forall p, p <> "user_data/images/" +:+ filename row ->
                  image_files w' !! p = image_files w !! p)
    /\ users w' = users w
    /\ report_files w' = report_files w.
Proof.
  intros Hu. apply upload_done in Hu as (uid & data & _ & _ & Hs & _ & ->).
  exists (uploaded_row w req uid ts iso). cbn [bills users report_files image_files].
  split; [reflexivity |]. split; [apply next_rowid_fresh |].
  split; [reflexivity |]. split; [cbn [uploaded_row filename]; now rewrite unique_name_slash |].
  split; [| auto]. intros p Hp. now apply write_image_other.
Qed.

Lemma matching_app (w : World) (more : list Bill) users' files reports uid ym :
  matching {| users := users'; bills := bills w ++ more;
              image_files := files; report_files := reports |} uid ym
  = matching w uid ym ++ List.filter (report_where uid ym) more.
Proof. unfold matching. cbn [bills]. apply List.filter_app. Qed.

Lemma thumbnail_pixels (self : Image) (size : Z * Z) :
  im_pixels (thumbnail self size) = im_pixels self
  \/ im_pixels (thumbnail self size) = Resampled (im_pixels self) (im_size self).
Proof.
  unfold thumbnail. destruct (preserve_aspect_ratio _ _) as [size'|]; [| now left].
  destruct (decide _); [now left | now right].
Qed.

Lemma image_of_bytes_size (path data : string) :
  exists iw ih, im_size (image_of_bytes path data) = (iw, ih) /\ 0 < iw /\ 0 < ih.
Proof.
  unfold image_of_bytes.
  destruct (image_size data) as [[a b]|]; cbn; eauto with lia.
Qed.

(** X7.  Upload then report.  After an accepted upload, a report of the
    uploader under any key whose pattern matches the bill's date has one
    page more than bills matched before, and one of its pages shows the
    inserted bill: the uploaded shop, the amount as the REAL column gives
    it back ([0.0] for an uploaded [-0.0], else the uploaded amount), the
    uploaded date and time, and one pasted image at (20, 150), which is the
    uploaded image (the gray placeholder if the bytes are no image) as it
    is or resampled, inside the 555 x 600 box, never enlarged, and less
    than one unit off its proportions. *)
Theorem upload_then_report
    (w w' : World) (req : UploadRequest) ts iso (s ym : string) (uid : Z) (data : string) :
  upload_bill w req ts iso = (w', Done s) ->
  get_current_user_id w (req_token req) = Some uid ->
  b64decode (req_image req) = Some data ->
  like (ym +:+ "%") (req_bill_date req) = true ->
  let native :=
    image_of_bytes ("user_data/images/" +:+ str_int ts +:+ "_" +:+ req_filename req)
      data in
  length (report_pages w' uid ym) = S (length (matching w uid ym))
  /\ exists (row : Bill) (page : Page) (pasted : Image),
       bills w' = bills w ++ [row]
       /\ In page (report_pages w' uid ym)
       /\ page_metadata page
          = [String.concat nl
               [ "Shop: " +:+ req_shop req;
                 "Amount: " +:+ float_str (sqlite_real (req_amount req));
                 "Date: " +:+ req_bill_date req +:+ " " +:+ req_bill_time req ]]
       /\ page_images page = [(pasted, (20, 150))]
       /\ fits_within (555, 600) (im_size native) (im_size pasted)
       /\ (im_pixels pasted = im_pixels native
           \/ im_pixels pasted = Resampled (im_pixels native) (im_size native)).
Proof.
  intros Hu Hid Hdata Hlike native.
  apply upload_done in Hu as (uid' & data' & Hid' & Hdata' & Hs & _ & ->).
  assert (uid' = uid) as -> by congruence.
  assert (data' = data) as -> by congruence.
  set (row := uploaded_row w req uid ts iso).
  set (w' := {| users := users w; bills := bills w ++ [row];
                image_files := _; report_files := report_files w |}).
  assert (Hm : matching w' uid ym = matching w uid ym ++ [row]).
  { unfold w'. rewrite matching_app. cbn [List.filter].
    unfold report_where. cbn [row uploaded_row user_id bill_date].
    now rewrite Z.eqb_refl, Hlike. }
  assert (Hne : report_rows w' uid ym <> []).
  { intros E. apply report_rows_nil_iff in E. rewrite Hm in E.
    now apply app_eq_nil in E as [_ [=]]. }
  split.
  { unfold report_pages. rewrite build_pages_nonempty by exact Hne.
    rewrite length_map, report_rows_length, Hm, length_app. cbn. lia. }
  assert (Hres : resolve_image (image_files w') (filename row) = native).
  { cbn [w' image_files row uploaded_row filename].
    now rewrite write_image_resolve by (now rewrite unique_name_slash). }
  exists row, (bill_page (image_files w') row), (thumbnail native (555, 600)).
  split; [reflexivity |]. split; [| split; [| split; [| split]]].
  - unfold report_pages. rewrite build_pages_nonempty by exact Hne.
    apply in_map. eapply Permutation_in;
      [symmetry; apply report_rows_matching |].
    rewrite Hm. apply in_or_app. right. now left.
  - rewrite bill_page_metadata, metadata_text_lines. reflexivity.
  - unfold bill_page, page_images. cbn [drawn flat_map app].
    now rewrite Hres.
  - destruct (image_of_bytes_size
                ("user_data/images/" +:+ str_int ts +:+ "_" +:+ req_filename req)
                data) as (iw & ih & Hsz & Hw & Hh).
    fold native in Hsz. rewrite Hsz.
    apply thumbnail_fits; [exact Hsz | lia ..].
  - apply thumbnail_pixels.
Qed.

(** X9.  An upload, accepted or not, changes no other user's fetched report
    rows and no other user's fetched statistics rows. *)
Theorem upload_leaves_other_users
    (w : World) (req : UploadRequest) ts iso (uid : Z) (ym : string) :
  get_current_user_id w (req_token req) <> Some uid ->
  report_rows (fst (upload_bill w req ts iso)) uid ym = report_rows w uid ym
  /\ stats_rows (fst (upload_bill w req ts iso)) uid = stats_rows w uid.
Proof.
  intros Hother. unfold upload_bill.
  destruct (get_current_user_id w (req_token req)) as [uploader|]; [| auto].
  destruct (b64decode (req_image req)); [| auto].
  destruct (open_refuses _); [auto |].
  destruct (is_nan _); cbn [fst]; [auto |].
  assert (Hne : (uploader =? uid) = false) by (apply Z.eqb_neq; congruence).
  unfold report_rows, stats_rows. cbn [bills].
  rewrite !List.filter_app. cbn [List.filter].
  unfold report_where at 2, stats_where at 2. cbn [user_id].
  rewrite Hne. cbn [andb]. now rewrite !app_nil_r.
Qed.

(** X10.  Two accepted uploads in the same second under the same filename, by
    whatever users, are stored under one name: the second file replaces the
    first, and the page of the first bill then shows the second image. *)
Theorem same_second_same_name_share_file
    (w w1 w2 : World) (req1 req2 : UploadRequest) ts iso1 iso2 (s1 s2 data2 : string) :
  upload_bill w req1 ts iso1 = (w1, Done s1) ->
  upload_bill w1 req2 ts iso2 = (w2, Done s2) ->
  req_filename req2 = req_filename req1 ->
  b64decode (req_image req2) = Some data2 ->
  exists row1 row2,
    bills w2 = bills w ++ [row1; row2]
    /\ rowid row1 <> rowid row2
    /\ filename row1 = filename row2
    /\ resolve_image (image_files w2) (filename row1)
       = image_of_bytes ("user_data/images/" +:+ filename row2) data2.
Proof.
  intros Up1 Up2 Hname Hdata.
  apply upload_done in Up1 as (u1 & d1 & _ & _ & Hs1 & _ & ->).
  apply upload_done in Up2 as (u2 & d2 & _ & Hd2 & Hs2 & _ & ->).
  assert (d2 = data2) as -> by congruence.
  cbn [bills image_files users report_files].
  eexists _, _. split; [now rewrite <- app_assoc |]. split; [| split].
  - cbn [uploaded_row rowid bills]. intros E.
    apply (next_rowid_fresh (List.map rowid (bills w ++ [uploaded_row w req1 u1 ts iso1]))).
    rewrite <- E, map_app. apply in_or_app. right. now left.
  - cbn [uploaded_row filename]. now rewrite Hname.
  - cbn [uploaded_row filename]. rewrite Hname.
    rewrite write_image_resolve by (now rewrite unique_name_slash).
    reflexivity.
Qed.

End Uploads.

(** ** What the tables keep true *)

Section Invariant.
Context `{PyFloat} `{!Libraries} `{!SqlEngine}.
Local Open Scope Z_scope.

Lemma NoDup_snoc {A} (l : list A) (x : A) :
  NoDup l -> ~ In x l -> NoDup (l ++ [x]).
Proof.
  intros Hl Hx. apply NoDup_app. split; [exact Hl |]. split.
  - intros y Hy Hy'. apply list_elem_of_In in Hy.
    apply list_elem_of_singleton in Hy'. congruence.
  - apply NoDup_singleton.
Qed.

Lemma current_user_registered (w : World) (token : string) (uid : Z) :
  get_current_user_id w token = Some uid ->
  In uid (List.map user_rowid (users w)).
Proof.
  unfold get_current_user_id.
  destruct (List.find _ (users w)) as [u|] eqn:E; [| discriminate].
  intros [= <-]. apply find_some in E as [Hu _]. now apply in_map.
Qed.

Lemma consistent_empty : consistent empty_world.
Proof. repeat split; constructor. Qed.

Lemma signup_consistent (w : World) (auth : AuthRequest) (tok : string) :
  consistent w -> consistent (fst (signup w auth tok)).
Proof.
  intros (Hn & Hi & Hb & Hp & Hf). unfold signup.
  destruct (user_named w (auth_username auth)) eqn:E; cbn [fst].
  { now repeat split. }
  apply user_named_None in E.
  unfold consistent. cbn [users bills]. rewrite !map_app. cbn [List.map username user_rowid].
  split; [now apply NoDup_snoc |].
  split; [apply NoDup_snoc; [exact Hi | apply next_rowid_fresh] |].
  split; [exact Hb |]. split.
  - apply Forall_app. split; [exact Hp |].
    constructor; [apply next_rowid_positive | constructor].
  - eapply Forall_impl; [exact Hf |]. intros b [Hu Hs].
    split; [apply in_or_app; now left | exact Hs].
Qed.

Lemma upload_consistent (w : World) (req : UploadRequest) ts iso :
  consistent w -> consistent (fst (upload_bill w req ts iso)).
Proof.
  intros (Hn & Hi & Hb & Hp & Hf). unfold upload_bill.
  destruct (get_current_user_id w (req_token req)) as [uid|] eqn:Eu; cbn [fst];
    [| now repeat split].
  destruct (b64decode (req_image req)); cbn [fst]; [| now repeat split].
  destruct (open_refuses _) eqn:Er; cbn [fst]; [now repeat split |].
  assert (Es : contains_slash (str_int ts +:+ "_" +:+ req_filename req) = false).
  { unfold open_refuses in Er. apply orb_false_iff in Er as [Er _].
    now apply orb_false_iff in Er as [Er _]. }
  destruct (is_nan _); cbn [fst]; [now repeat split |].
  unfold consistent. cbn [users bills]. rewrite map_app. cbn [List.map rowid].
  split; [exact Hn |]. split; [exact Hi |].
  split; [apply NoDup_snoc; [exact Hb | apply next_rowid_fresh] |].
  split; [exact Hp |].
  apply Forall_app. split; [exact Hf |].
  constructor; [| constructor]. cbn [user_id filename].
  split; [now apply current_user_registered in Eu | exact Es].
Qed.

Lemma report_consistent (w : World) (ym token : string) (fault : option Fault) :
  consistent w -> consistent (fst (monthly_report w ym token fault)).
Proof.
  intros Hw. unfold monthly_report.
  destruct (get_current_user_id w token); [| exact Hw].
  destruct (build_pages _ _); [exact Hw |].
  destruct (save _ _ _ _ _) as [fs []]; exact Hw.
Qed.

Lemma handle_consistent (w : World) (r : Request) :
  consistent w -> consistent (handle w r).
Proof.
  destruct r; cbn [handle];
    [apply signup_consistent | apply upload_consistent | apply report_consistent].
Qed.

(** X4.  Whatever signups, uploads and report requests a fresh database has
    seen, accepted or refused: no two users share a name or an id, ids
    start at 1, no two bills share an id, every bill belongs to a
    registered user, and no stored image name has a directory part. *)
Theorem tables_stay_consistent (history : list Request) : consistent (run history).
Proof.
  unfold run. generalize consistent_empty. generalize empty_world.
  induction history as [|r history IH]; intros w Hw; [exact Hw |].
  cbn [fold_left]. apply IH. now apply handle_consistent.
Qed.

End Invariant.

(** ** More on selection, statistics and the report file *)

Section MoreOnReports.
Context `{PyFloat} `{!SqlEngine}.
Local Open Scope Z_scope.

Lemma contributing_In (w : World) (uid : Z) (k : string) (b : Bill) :
  In b (contributing w uid k)
  <-> In b (bills w) /\ user_id b = uid /\ slice7 (bill_date b) = k.
Proof.
  unfold contributing. rewrite filter_In, String.eqb_eq. split.
  - intros [Hb Hk]. apply (Permutation_in _ (order_by_permutation _)) in Hb.
    apply filter_In in Hb as [Hb Hu]. apply Z.eqb_eq in Hu. auto.
  - intros (Hb & Hu & Hk). split; [| exact Hk].
    apply (Permutation_in _ (Permutation_sym (order_by_permutation _))).
    apply filter_In. split; [exact Hb | now apply Z.eqb_eq].
Qed.

Lemma contributing_permutation (w : World) (uid : Z) (k : string) :
  Permutation (contributing w uid k)
    (List.filter (fun b => stats_where uid b
                           && String.eqb (slice7 (bill_date b)) k) (bills w)).
Proof.
  unfold contributing.
  rewrite (filter_permutation _ _ _ (order_by_permutation _)), filter_filter.
  reflexivity.
Qed.

(** X11.  The keys of the statistics are the months of the owner's bills: a key
    is present exactly when some bill of the owner has it as the first
    seven characters of its date (the whole date, if that is shorter). *)
Theorem stats_keys_are_months (w : World) (uid : Z) (k : string) :
  is_Some (monthly_totals_of (stats_rows w uid) !! k)
  <-> exists b : Bill, In b (bills w) /\ user_id b = uid /\ slice7 (bill_date b) = k.
Proof.
  rewrite monthly_totals_lookup.
  pose proof (contributing_In w uid k) as Hin.
  destruct (contributing w uid k) as [|b sel] eqn:E.
  - split; [intros [? [=]] |]. intros (b & Hb). apply Hin in Hb. destruct Hb.
  - split; [| eauto]. intros _. exists b. apply Hin. now left.
Qed.

Lemma like_star_unfold (r s : string) :
  like_chars (String "%" r) s
  = like_chars r s
    || match s with
       | EmptyString => false
       | String _ s' => like_chars (String "%" r) s'
       end.
Proof. destruct s; reflexivity. Qed.

Lemma like_cons_cases (c : ascii) (r s : string) :
  Ascii.eqb c "%" = false ->
  like_chars (String c r) s
  = match s with
    | EmptyString => false
    | String a s' =>
        (Ascii.eqb c "_" || Ascii.eqb (to_lower a) (to_lower c)) && like_chars r s'
    end.
Proof.
  intros Hc. cbn [like_chars]. rewrite Hc.
  destruct (Ascii.eqb c "_"); destruct s; reflexivity.
Qed.

(** What a pattern matches, the pattern cut short and closed by [%]
    matches too. *)
Lemma like_chars_cut_short (p q s : string) :
  like_chars (p +:+ q) s = true -> like_chars (p +:+ "%") s = true.
Proof.
  revert s. induction p as [|c p IH]; intros s.
  - intros _. apply like_percent.
  - rewrite !string_app_cons.
    destruct (Ascii.eqb c "%") eqn:Ec.
    + apply Ascii.eqb_eq in Ec. subst c.
      induction s as [|a s IHs]; rewrite (like_star_unfold (p +:+ q)),
        (like_star_unfold (p +:+ "%")); intros Hm;
        apply orb_true_iff in Hm as [Hm | Hm]; try discriminate.
      * now rewrite (IH _ Hm).
      * now rewrite (IH _ Hm).
      * rewrite (IHs Hm). apply orb_true_r.
    + rewrite !(like_cons_cases _ _ _ Ec). destruct s as [|a s]; [auto |].
      intros Hm. apply andb_true_iff in Hm as [Hc Hm].
      now rewrite Hc, (IH _ Hm).
Qed.

(** The same for [LIKE]: a NUL in the key ends both patterns at the same
    place, and a NUL further on only shortens the longer one. *)
Lemma like_cut_short (p q s : string) :
  like (p +:+ q +:+ "%") s = true -> like (p +:+ "%") s = true.
Proof.
  unfold like. rewrite (upto_nul_app p (q +:+ "%")), (upto_nul_app p "%").
  destruct (contains_nul p); [auto |]. apply like_chars_cut_short.
Qed.

(** X12.  A key selects every bill that a longer key beginning with it selects:
    the report for [2024] holds every bill of the report for [2024-03]. *)
Theorem shorter_key_selects_more (w : World) (uid : Z) (k more : string) (b : Bill) :
  In b (matching w uid (k +:+ more)) -> In b (matching w uid k).
Proof.
  rewrite !matching_In. intros (Hb & Hu & Hl). repeat split; try assumption.
  rewrite string_app_assoc in Hl. now apply like_cut_short in Hl.
Qed.

(** X13.  A report request repeated on the world it left, with nothing uploaded
    in between, writes the same file again and returns the same response. *)
Theorem report_again_same (w : World) (ym token : string) (uid : Z) :
  get_current_user_id w token = Some uid ->
  monthly_report (fst (monthly_report w ym token None)) ym token None
  = monthly_report w ym token None.
Proof.
  intros Hu. rewrite (monthly_report_returns w ym token uid Hu). cbn [fst].
  rewrite (monthly_report_returns _ ym token uid) by exact Hu.
  f_equal. unfold with_reports. cbn [users bills image_files report_files].
  f_equal. apply insert_insert_eq.
Qed.

(** X14.  A report request, whatever its outcome, changes neither the tables nor
    the images, and no report file but its own: the report of another
    owner or of another month key stays as it was. *)
Theorem report_changes_only_its_file
    (w : World) (ym token : string) (uid : Z) (fault : option Fault)
    (uid' : Z) (ym' : string) :
  get_current_user_id w token = Some uid ->
  (uid', ym') <> (uid, ym) ->
  let w' := fst (monthly_report w ym token fault) in
  users w' = users w /\ bills w' = bills w /\ image_files w' = image_files w
  /\ report_files w' !! report_path_of uid' ym'
     = report_files w !! report_path_of uid' ym'.
Proof.
  intros Hu Hne. cbv zeta. unfold monthly_report. rewrite Hu.
  destruct (build_pages _ _) as [|first rest]; [auto |].
  pose proof (save_other_paths (report_files w) (report_path_of uid ym)
                first rest fault (report_path_of uid' ym')) as Hother.
  destruct (save _ _ _ _ _) as [fs ok]. cbn [fst] in Hother.
  assert (Hp : report_path_of uid' ym' <> report_path_of uid ym).
  { intros E. apply report_path_of_inj in E as [-> ->]. now apply Hne. }
  destruct ok; cbn [fst users bills image_files report_files with_reports]; auto.
Qed.

(** X15.  A thumbnail of a thumbnail, for the same box, is the thumbnail. *)
Theorem thumbnail_twice (self : Image) (x y w h : Z) :
  im_size self = (w, h) -> 0 < w -> 0 < h -> 0 < x -> 0 < y ->
  thumbnail (thumbnail self (x, y)) (x, y) = thumbnail self (x, y).
Proof.
  intros Hs Hw Hh Hx Hy.
  pose proof (thumbnail_fits self x y w h Hs Hw Hh Hx Hy) as F.
  destruct (im_size (thumbnail self (x, y))) as [w' h'] eqn:E.
  unfold fits_within in F. destruct F as (Fw & Fh & _).
  unfold thumbnail at 1. rewrite E. unfold preserve_aspect_ratio.
  destruct (Z.leb_spec w' x), (Z.leb_spec h' y); try lia. reflexivity.
Qed.

(** X16.  The image pasted on a bill's page lies inside the page: its corner is
    at (20, 150) and its far corner does not pass the 595 x 842 canvas. *)
Theorem pasted_image_inside_page (files : gmap string (positive * positive)) (bill : Bill) :
  exists (im : Image) (iw ih : Z),
    page_images (bill_page files bill) = [(im, (20, 150))]
    /\ im_size im = (iw, ih)
    /\ im_size (canvas (bill_page files bill)) = (595, 842)
    /\ 1 <= iw /\ 1 <= ih /\ 20 + iw <= 595 /\ 150 + ih <= 842.
Proof.
  destruct (resolve_image_size files (filename bill)) as (w & h & Hs & Hw & Hh).
  pose proof (thumbnail_fits _ 555 600 w h Hs Hw Hh eq_refl eq_refl) as F.
  destruct (im_size (thumbnail (resolve_image files (filename bill)) (555, 600)))
    as [iw ih] eqn:E.
  exists (thumbnail (resolve_image files (filename bill)) (555, 600)), iw, ih.
  unfold fits_within in F.
  split; [reflexivity |]. split; [exact E |]. split; [reflexivity |]. lia.
Qed.

End MoreOnReports.

(** ** Uploads and the statistics *)

Section UploadsAndStats.
Context `{PyFloat} `{!Libraries} `{!SqlEngine}.

(** A sum started at [0.0] is never [-0.0], so it does not tell the [-0.0]
    of a request from the [0.0] the column gives back for it. *)
Lemma sum_not_neg_zero (amounts : list float) (x : float) :
  is_neg_zero x = false -> is_neg_zero (fold_left float_add amounts x) = false.
Proof.
  revert x. induction amounts as [|a amounts IH]; intros x Hx; cbn [fold_left].
  - exact Hx.
  - apply IH. now apply add_not_neg_zero.
Qed.

Lemma add_sqlite_real (x a : float) :
  is_neg_zero x = false -> float_add x (sqlite_real a) = float_add x a.
Proof.
  intros Hx. unfold sqlite_real. destruct (is_neg_zero a) eqn:Ea; [| reflexivity].
  symmetry. now apply add_neg_zero.
Qed.

Lemma sum_sqlite_real (before after : list float) (a : float) :
  fold_left float_add (before ++ sqlite_real a :: after) float_zero
  = fold_left float_add (before ++ a :: after) float_zero.
Proof.
  rewrite !fold_left_app. cbn [fold_left].
  rewrite add_sqlite_real; [reflexivity |].
  apply sum_not_neg_zero, zero_not_neg_zero.
Qed.

(** X8.  Upload then statistics.  After an accepted upload the uploader's
    statistics have a total under the first seven characters of the
    bill's date, and it is a float sum, from 0.0, of the amounts that
    counted under that key before together with the uploaded amount. *)
Theorem upload_then_stats
    (w w' : World) (req : UploadRequest) ts iso (s : string) (uid : Z) :
  upload_bill w req ts iso = (w', Done s) ->
  get_current_user_id w (req_token req) = Some uid ->
  exists amounts,
    Permutation amounts
      (List.map amount (contributing w uid (slice7 (req_bill_date req)))
       ++ [req_amount req])
    /\ monthly_totals_of (stats_rows w' uid) !! slice7 (req_bill_date req)
       = Some (fold_left float_add amounts float_zero).
Proof.
  intros Hu Hid.
  apply upload_done in Hu as (uid' & data & Hid' & _ & _ & _ & ->).
  assert (uid' = uid) as -> by congruence.
  set (k := slice7 (req_bill_date req)).
  set (row := uploaded_row w req uid ts iso).
  set (w' := {| users := users w; bills := bills w ++ [row];
                image_files := _; report_files := report_files w |}).
  assert (HP : Permutation (contributing w' uid k) (contributing w uid k ++ [row])).
  { rewrite !contributing_permutation. unfold w'. cbn [bills].
    rewrite List.filter_app. cbn [List.filter].
    unfold stats_where at 2. cbn [row uploaded_row user_id bill_date].
    fold k. now rewrite Z.eqb_refl, String.eqb_refl. }
  assert (Hin : In row (contributing w' uid k)).
  { apply (Permutation_in _ (Permutation_sym HP)), in_or_app. right. now left. }
  apply in_split in Hin as (before & after & E). rewrite E in HP.
  assert (HP' : Permutation (before ++ after) (contributing w uid k)).
  { apply (Permutation_cons_inv (a := row)).
    etransitivity; [apply Permutation_middle |].
    etransitivity; [exact HP |]. symmetry. apply Permutation_cons_append. }
  exists (List.map amount before ++ req_amount req :: List.map amount after). split.
  - rewrite <- (Permutation_map amount HP'), map_app.
    etransitivity; [symmetry; apply Permutation_middle |].
    apply Permutation_cons_append.
  - rewrite monthly_totals_lookup, E.
    transitivity
      (Some (fold_left float_add (List.map amount (before ++ row :: after)) float_zero)).
    { now destruct before. }
    rewrite map_app. cbn [List.map].
    change (amount row) with (sqlite_real (req_amount req)).
    f_equal. apply sum_sqlite_real.
Qed.

End UploadsAndStats.

(** ** The sample store, written to *)

(** Stand-ins for the libraries: a digest that tags its input, a decoder
    that refuses texts beginning with an exclamation mark, and two byte
    strings that are images; an amount in hundredths is never NaN and
    never [-0.0]. *)
#[local, refine] Instance stand_ins : Libraries :=
  {| sha256_hexdigest := fun s => "sha256:" +:+ s;
     b64decode := fun s => if String.prefix "!" s then None else Some s;
     image_size := fun s =>
       if String.eqb s "large" then Some (3000%positive, 4000%positive)
       else if String.eqb s "small" then Some (300%positive, 200%positive)
       else None;
     is_nan := fun _ => false;
     is_neg_zero := fun _ => false |}.
Proof.
  - reflexivity.
  - intros; discriminate.
  - reflexivity.
Defined.

Definition carol : AuthRequest :=
  {| auth_username := "carol"; auth_password := "c-secret" |}.

Definition lunch : UploadRequest :=
  {| req_token := "tok-a"; req_filename := "lunch.png"; req_image := "small";
     req_amount := 725%Z; req_bill_date := "2024-03-20";
     req_bill_time := "13:05"; req_shop := "Diner" |}.

Definition dinner : UploadRequest :=
  {| req_token := "tok-b"; req_filename := "lunch.png"; req_image := "large";
     req_amount := 1980%Z; req_bill_date := "2024-03-20";
     req_bill_time := "20:10"; req_shop := "Bistro" |}.

Section SampleWrites.
Local Existing Instance by_storage_order.

Example carol_then_lunch_history :
  let w := run [Signup carol "tok-c";
                Signup carol "tok-x";
                Upload {| req_token := "tok-c"; req_filename := "a/b.png";
                          req_image := "small"; req_amount := 100%Z;
                          req_bill_date := "2024-05-01"; req_bill_time := "08:00";
                          req_shop := "Kiosk" |} 1714550400 "2024-05-01T08:00:00";
                Upload {| req_token := "tok-c"; req_filename := "b.png";
                          req_image := "small"; req_amount := 100%Z;
                          req_bill_date := "2024-05-01"; req_bill_time := "08:00";
                          req_shop := "Kiosk" |} 1714550400 "2024-05-01T08:00:00"] in
  List.map username (users w) = ["carol"]
  /\ List.map filename (bills w) = ["1714550400_b.png"]
  /\ stats w "tok-c" = Some {[ "2024-05" := 100%Z ]}.
Proof. vm_compute. repeat split. Qed.

(** carol signs up on the sample store and logs in. *)
Lemma signup_then_login_sample :
  signup world carol "tok-c" = (fst (signup world carol "tok-c"), Done "tok-c")
  /\ login (fst (signup world carol "tok-c")) carol = Done "tok-c"
  /\ login (fst (signup world carol "tok-c"))
       {| auth_username := "carol"; auth_password := "guess" |}
     = HTTPException 401 "Invalid credentials".
Proof.
  split; [reflexivity |].
  split.
  - exact (signup_then_login world _ carol "tok-c" "tok-c" "c-secret" eq_refl).
  - exact (signup_then_login world _ carol "tok-c" "tok-c" "guess" eq_refl).
Defined.

(** alice's login is not touched by carol's signup. *)
Lemma signup_keeps_other_logins_sample :
  "alice" <> "carol"
  /\ login (fst (signup world carol "tok-c"))
       {| auth_username := "alice"; auth_password := "a" |}
     = login world {| auth_username := "alice"; auth_password := "a" |}.
Proof.
  split; [discriminate |].
  apply (signup_keeps_other_logins world carol
           {| auth_username := "alice"; auth_password := "a" |} "tok-c").
  discriminate.
Defined.

(** carol's token is new; she becomes user 3. *)
Lemma signup_token_authenticates_sample :
  signup world carol "tok-c" = (fst (signup world carol "tok-c"), Done "tok-c")
  /\ ~ In "tok-c" (List.map user_token (users world))
  /\ get_current_user_id (fst (signup world carol "tok-c")) "tok-a" = Some 1%Z.
Proof.
  split; [reflexivity |].
  split; [cbn; intros [[=] | [[=] | []]] |].
  apply (signup_token_authenticates world _ carol "tok-c" "tok-c");
    reflexivity.
Defined.

(** alice uploads a lunch bill. *)
Lemma upload_writes_one_image_file_sample :
  upload_bill world lunch 1710939900 "2024-03-20T13:05:00"
  = (fst (upload_bill world lunch 1710939900 "2024-03-20T13:05:00"), Done "success")
  /\ exists row,
       bills (fst (upload_bill world lunch 1710939900 "2024-03-20T13:05:00"))
       = bills world ++ [row]
       /\ filename row = "1710939900_lunch.png".
Proof.
  assert (Hup : upload_bill world lunch 1710939900 "2024-03-20T13:05:00"
                = (fst (upload_bill world lunch 1710939900 "2024-03-20T13:05:00"),
                   Done "success")) by reflexivity.
  split; [exact Hup |].
  destruct (upload_writes_one_image_file world _ lunch 1710939900
              "2024-03-20T13:05:00" "success" Hup)
    as (row & Hb & _ & Hf & _).
  exists row. split; [exact Hb | exact Hf].
Defined.

(** Her March report then has four pages. *)
Example lunch_makes_a_fourth_page :
  length (report_pages
            (fst (upload_bill world lunch 1710939900 "2024-03-20T13:05:00"))
            1 "2024-03") = 4%nat.
Proof. vm_compute. reflexivity. Qed.

(** bob's rows are the same after alice's upload. *)
Lemma upload_leaves_other_users_sample :
  get_current_user_id world (req_token lunch) <> Some 2%Z
  /\ report_rows (fst (upload_bill world lunch 1710939900 "2024-03-20T13:05:00"))
       2 "2024-03"
     = report_rows world 2 "2024-03".
Proof.
  split; [discriminate |].
  apply (upload_leaves_other_users world lunch 1710939900 "2024-03-20T13:05:00"
           2 "2024-03").
  discriminate.
Defined.

(** alice and bob both upload a [lunch.png] in the same second. *)
Lemma same_second_same_name_share_file_sample :
  let w1 := fst (upload_bill world lunch 1710939900 "2024-03-20T13:05:00") in
  let w2 := fst (upload_bill w1 dinner 1710939900 "2024-03-20T13:05:00") in
  upload_bill world lunch 1710939900 "2024-03-20T13:05:00" = (w1, Done "success")
  /\ upload_bill w1 dinner 1710939900 "2024-03-20T13:05:00" = (w2, Done "success")
  /\ req_filename dinner = req_filename lunch
  /\ b64decode (req_image dinner) = Some "large"
  /\ exists row1 row2,
       bills w2 = bills world ++ [row1; row2]
       /\ filename row1 = filename row2.
Proof.
  intros w1 w2.
  assert (Hup1 : upload_bill world lunch 1710939900 "2024-03-20T13:05:00"
                 = (w1, Done "success")) by reflexivity.
  assert (Hup2 : upload_bill w1 dinner 1710939900 "2024-03-20T13:05:00"
                 = (w2, Done "success")) by reflexivity.
  split; [exact Hup1 |]. split; [exact Hup2 |].
  split; [reflexivity |]. split; [reflexivity |].
  destruct (same_second_same_name_share_file world w1 w2 lunch dinner 1710939900
              "2024-03-20T13:05:00" "2024-03-20T13:05:00" "success" "success"
              "large" Hup1 Hup2 eq_refl eq_refl)
    as (row1 & row2 & Hb & _ & Hf & _).
  exists row1, row2. split; [exact Hb | exact Hf].
Defined.

(** The key 2024 selects what 2024-03 selects. *)
Lemma shorter_key_selects_more_sample :
  In march_15 (matching world 1 ("2024" +:+ "-03"))
  /\ In march_15 (matching world 1 "2024").
Proof.
  assert (Hin : In march_15 (matching world 1 ("2024" +:+ "-03"))).
  { vm_compute. right. right. now left. }
  split; [exact Hin |].
  apply (shorter_key_selects_more world 1 "2024" "-03" march_15 Hin).
Defined.

(** alice asks twice for March 2024. *)
Lemma report_again_same_sample :
  get_current_user_id world "tok-a" = Some 1%Z
  /\ monthly_report (fst (monthly_report world "2024-03" "tok-a" None))
       "2024-03" "tok-a" None
     = monthly_report world "2024-03" "tok-a" None.
Proof.
  split; [reflexivity |].
  apply (report_again_same world "2024-03" "tok-a" 1). reflexivity.
Defined.

(** alice's failed write for March leaves her April report and bob's March
    report alone. *)
Lemma report_changes_only_its_file_sample :
  get_current_user_id world_with_old_report "tok-a" = Some 1%Z
  /\ (2%Z, "2024-03") <> (1%Z, "2024-03")
  /\ report_files
       (fst (monthly_report world_with_old_report "2024-03" "tok-a"
               (Some (write_fails 1))))
       !! report_path_of 2 "2024-03"
     = report_files world_with_old_report !! report_path_of 2 "2024-03".
Proof.
  split; [reflexivity |]. split; [discriminate |].
  apply (report_changes_only_its_file world_with_old_report "2024-03" "tok-a" 1
           (Some (write_fails 1)) 2 "2024-03");
    [reflexivity | discriminate].
Defined.

(** A 3000 x 4000 photograph, made a thumbnail twice. *)
Lemma thumbnail_twice_sample :
  let photo := {| im_size := (3000, 4000)%Z; im_pixels := Photo "p" |} in
  im_size photo = (3000, 4000)%Z
  /\ thumbnail (thumbnail photo (555, 600)%Z) (555, 600)%Z
     = thumbnail photo (555, 600)%Z.
Proof.
  cbv zeta. split; [reflexivity |].
  apply (thumbnail_twice _ 555 600 3000 4000); reflexivity.
Defined.

(** alice's total for March 2024 after the lunch bill. *)
Lemma upload_then_stats_sample :
  upload_bill world lunch 1710939900 "2024-03-20T13:05:00"
  = (fst (upload_bill world lunch 1710939900 "2024-03-20T13:05:00"), Done "success")
  /\ get_current_user_id world (req_token lunch) = Some 1%Z
  /\ is_Some (monthly_totals_of
                (stats_rows
                   (fst (upload_bill world lunch 1710939900 "2024-03-20T13:05:00")) 1)
              !! "2024-03").
Proof.
  assert (Hup : upload_bill world lunch 1710939900 "2024-03-20T13:05:00"
                = (fst (upload_bill world lunch 1710939900 "2024-03-20T13:05:00"),
                   Done "success")) by reflexivity.
  split; [exact Hup |]. split; [reflexivity |].
  destruct (upload_then_stats world _ lunch 1710939900 "2024-03-20T13:05:00"
              "success" 1 Hup eq_refl) as (amounts & _ & Htotal).
  exists (fold_left float_add amounts float_zero). exact Htotal.
Defined.

Example alice_total_after_lunch :
  stats (fst (upload_bill world lunch 1710939900 "2024-03-20T13:05:00")) "tok-a"
  = Some {[ "2024-03" := 7085%Z ]}.
Proof. vm_compute. reflexivity. Qed.

End SampleWrites.

(** ** An upload of [-0.0]

    Amounts in hundredths again, now with a negative zero beside the
    numbers: it adds as IEEE's does and prints as [-0.0]. *)

Inductive Signed :=
| neg_zero
| num (h : Z).

Definition signed_add (x y : Signed) : Signed :=
  match x, y with
  | neg_zero, _ => y
  | _, neg_zero => x
  | num a, num b => num (a + b)
  end.

Definition signed_str (x : Signed) : string :=
  match x with
  | neg_zero => "-0.0"
  | num h => hundredths_str h
  end.

Definition signed_is_neg_zero (x : Signed) : bool :=
  match x with
  | neg_zero => true
  | num _ => false
  end.

Definition signed_hundredths : PyFloat :=
  {| float := Signed; float_zero := num 0; float_add := signed_add;
     float_str := signed_str |}.

Lemma signed_add_neg_zero (x a : Signed) :
  signed_is_neg_zero x = false -> signed_is_neg_zero a = true ->
  signed_add x a = signed_add x (num 0).
Proof.
  destruct x as [|h], a as [|k]; try discriminate. intros _ _.
  cbn [signed_add]. now rewrite Z.add_0_r.
Qed.

Lemma signed_add_not_neg_zero (x y : Signed) :
  signed_is_neg_zero x = false -> signed_is_neg_zero (signed_add x y) = false.
Proof. destruct x as [|h], y as [|k]; try discriminate; reflexivity. Qed.

Definition signed_stand_ins : @Libraries signed_hundredths :=
  @Build_Libraries signed_hundredths
    (@sha256_hexdigest _ stand_ins) (@b64decode _ stand_ins)
    (@image_size _ stand_ins) (fun _ => false) signed_is_neg_zero
    eq_refl signed_add_neg_zero signed_add_not_neg_zero.

Definition signed_by_rowid_scan : @SqlEngine signed_hundredths :=
  @sqlite_engine signed_hundredths.

Section SignedZero.
Local Existing Instance signed_hundredths.
Local Existing Instance signed_stand_ins.
Local Existing Instance signed_by_rowid_scan.

(** The store after alice's signup, and her upload of a bill of [-0.0]. *)
Definition alice_alone : @World signed_hundredths :=
  {| users := [alice]; bills := []; image_files := ∅; report_files := ∅ |}.

Definition refund : @UploadRequest signed_hundredths :=
  {| req_token := "tok-a"; req_filename := "refund.png"; req_image := "small";
     req_amount := neg_zero; req_bill_date := "2024-03-21";
     req_bill_time := "09:30"; req_shop := "Grocer" |}.

(** The page of her March report prints the amount as [0.0]. *)
Lemma upload_then_report_sample :
  upload_bill alice_alone refund 1711013400 "2024-03-21T09:30:00"
  = (fst (upload_bill alice_alone refund 1711013400 "2024-03-21T09:30:00"),
     Done "success")
  /\ get_current_user_id alice_alone (req_token refund) = Some 1%Z
  /\ b64decode (req_image refund) = Some "small"
  /\ like ("2024-03" +:+ "%") (req_bill_date refund) = true
  /\ float_str (req_amount refund) = "-0.0"
  /\ length (report_pages
               (fst (upload_bill alice_alone refund 1711013400 "2024-03-21T09:30:00"))
               1 "2024-03") = 1%nat
  /\ exists page,
       In page (report_pages
                  (fst (upload_bill alice_alone refund 1711013400 "2024-03-21T09:30:00"))
                  1 "2024-03")
       /\ page_metadata page
          = [String.concat nl
               ["Shop: Grocer"; "Amount: 0.0"; "Date: 2024-03-21 09:30"]].
Proof.
  assert (Hup : upload_bill alice_alone refund 1711013400 "2024-03-21T09:30:00"
                = (fst (upload_bill alice_alone refund 1711013400
                          "2024-03-21T09:30:00"),
                   Done "success")) by reflexivity.
  split; [exact Hup |]. split; [reflexivity |].
  split; [reflexivity |]. split; [reflexivity |]. split; [reflexivity |].
  destruct (upload_then_report alice_alone _ refund 1711013400 "2024-03-21T09:30:00"
              "success" "2024-03" 1 "small" Hup eq_refl eq_refl eq_refl)
    as (Hlen & row & page & pasted & _ & Hin & Hmeta & _).
  split; [exact Hlen |].
  exists page. split; [exact Hin | exact Hmeta].
Defined.

(** Her total for March is [0.0] as well. *)
Example refund_total :
  stats (fst (upload_bill alice_alone refund 1711013400 "2024-03-21T09:30:00")) "tok-a"
  = Some {[ "2024-03" := num 0 ]}.
Proof. vm_compute. reflexivity. Qed.

End SignedZero.
